(** * fmu.ensemble.realization: a shallow embedding and its verified properties

    The development follows [src/fmu/ensemble/realization.py]:

    - [Py]: the Python values and builtins the module relies on
      ([int], [float], [os.path.join], [re.match], exceptions);
    - [Eff]: a small state-and-exception monad with a trace of the calls
      made to the outside world;
    - [pd], [World]: what the module uses of pandas, of the summary
      decoder and of the file system;
    - [Realization]: [parse_number], [ScratchRealization] and
      [VirtualRealization], written function by function after the source;
    - [Client]: sequences of calls, example worlds and the vocabulary of
      the statements;
    - the theorems about them.

    Python text is modelled by [string], read as a sequence of code points
    below 256. *)

From Stdlib Require Import ZArith QArith String Ascii List Bool Lia.
From Stdlib Require Import Floats.SpecFloat.
From Stdlib Require Import DecimalString DecimalPos DecimalZ.
From stdpp Require Import base option list strings gmap.

Local Open Scope string_scope.
Local Open Scope Z_scope.

(* ===================================================================== *)
(** * Python values and builtins                                          *)
(* ===================================================================== *)

Module Py.

(** The exception classes that the modelled code and builtins can raise. *)
Inductive exn : Type :=
  | ValueError | IndexError | TypeError | OverflowError
  | KeyError | IOError | AttributeError.

Definition exn_eqb (a b : exn) : bool :=
  match a, b with
  | ValueError, ValueError | IndexError, IndexError | TypeError, TypeError
  | OverflowError, OverflowError | KeyError, KeyError | IOError, IOError
  | AttributeError, AttributeError => true
  | _, _ => false
  end.

(** The outcome of evaluating a Python expression: a value or a raised
    exception. *)
Inductive result (A : Type) : Type :=
  | Ok (a : A)
  | Raise (e : exn).
Arguments Ok {A} a.
Arguments Raise {A} e.

Definition rbind {A B} (m : result A) (f : A -> result B) : result B :=
  match m with
  | Ok a => f a
  | Raise e => Raise e
  end.

(** [try: body  except cls: handler] *)
Definition try_except {A} (body : result A) (cls : exn) (handler : result A)
  : result A :=
  match body with
  | Ok a => Ok a
  | Raise e => if exn_eqb e cls then handler else Raise e
  end.

(** A Python [float] is an IEEE 754 binary64 value. *)
Definition prec : Z := 53.
Definition emax : Z := 1024.

(** The values handled by the module: [int], [float], [str], [None] and
    dictionaries (in insertion order). *)
#[warnings="-register-all"]
Inductive value : Type :=
  | PyInt (z : Z)
  | PyFloat (f : spec_float)
  | PyStr (s : string)
  | PyNone
  | PyDict (d : list (string * value)).

(** ** Characters *)

Definition code (c : ascii) : Z := Z.of_nat (nat_of_ascii c).

Definition is_digit (c : ascii) : bool := (48 <=? code c) && (code c <=? 57).

Definition digit_value (c : ascii) : Z := code c - 48.

(** The blanks that [int] and [float] strip from a text, among the code
    points below 256: tab, newline, vertical tab, form feed, carriage
    return, space, next line and no-break space. *)
Definition is_space (c : ascii) : bool :=
  ((9 <=? code c) && (code c <=? 13))
  || (code c =? 32)
  || (code c =? 133) || (code c =? 160).

Definition is_alpha (c : ascii) : bool :=
  ((65 <=? code c) && (code c <=? 90)) || ((97 <=? code c) && (code c <=? 122)).

(** The letters and numbers among the code points 128 to 255. *)
Definition is_latin1_alnum (c : ascii) : bool :=
  (code c =? 170) || (code c =? 178) || (code c =? 179) || (code c =? 181)
  || (code c =? 185) || (code c =? 186)
  || ((188 <=? code c) && (code c <=? 190))
  || ((192 <=? code c) && (code c <=? 214))
  || ((216 <=? code c) && (code c <=? 246))
  || ((248 <=? code c) && (code c <=? 255)).

(** [\w] on code points below 256: letters, numbers and the underscore. *)
Definition is_word (c : ascii) : bool :=
  is_digit c || is_alpha c || (code c =? 95) || is_latin1_alnum c.

Definition lower_char (c : ascii) : ascii :=
  if (65 <=? code c) && (code c <=? 90)
  then ascii_of_nat (nat_of_ascii c + 32) else c.

Fixpoint lower (s : string) : string :=
  match s with
  | EmptyString => EmptyString
  | String c s' => String (lower_char c) (lower s')
  end.

(** ** Stripping white space, signs, digit groups *)

Fixpoint lstrip (s : string) : string :=
  match s with
  | String c s' => if is_space c then lstrip s' else s
  | EmptyString => EmptyString
  end.

Fixpoint rstrip (s : string) : string :=
  match s with
  | EmptyString => EmptyString
  | String c s' =>
      match rstrip s' with
      | EmptyString => if is_space c then EmptyString else String c EmptyString
      | r => String c r
      end
  end.

Definition strip (s : string) : string := rstrip (lstrip s).

(** An optional leading [+] or [-]: [true] for a minus sign. *)
Definition split_sign (s : string) : bool * string :=
  match s with
  | String "-" s' => (true, s')
  | String "+" s' => (false, s')
  | _ => (false, s)
  end.

(** The longest prefix of the form [digit (["_"] digit)*], read after a
    first digit was consumed: its digits and what follows it. *)
Fixpoint digits_tail (s : string) : list Z * string :=
  match s with
  | String c s' =>
      if is_digit c then
        let '(ds, r) := digits_tail s' in (digit_value c :: ds, r)
      else
        match c, s' with
        | "_"%char, String d s'' =>
            if is_digit d then
              let '(ds, r) := digits_tail s'' in (digit_value d :: ds, r)
            else ([], s)
        | _, _ => ([], s)
        end
  | EmptyString => ([], EmptyString)
  end.

Definition digitpart (s : string) : option (list Z * string) :=
  match s with
  | String c s' =>
      if is_digit c then
        let '(ds, r) := digits_tail s' in Some (digit_value c :: ds, r)
      else None
  | EmptyString => None
  end.

Definition digits_to_Z (ds : list Z) : Z :=
  fold_left (fun acc d => 10 * acc + d) ds 0.

(** ** [int(text)] in base ten *)

Definition int_of_str (s : string) : result Z :=
  let '(neg, body) := split_sign (strip s) in
  match digitpart body with
  | Some (ds, EmptyString) =>
      Ok (if neg then - digits_to_Z ds else digits_to_Z ds)
  | _ => Raise ValueError
  end.

(** ** [float(text)] *)

(** The correctly rounded binary64 value of [m * 10^e] with the sign [neg]
    (round to nearest, ties to even; overflow gives an infinity). *)
Definition float_of_decimal (neg : bool) (m e : Z) : spec_float :=
  match m with
  | Zpos p =>
      SFdiv prec emax
        (S754_finite neg (Z.to_pos (m * 10 ^ Z.max e 0)) 0)
        (S754_finite false (Z.to_pos (10 ^ Z.max (- e) 0)) 0)
  | _ => S754_zero neg
  end.

(** The optional exponent part [(e|E) [sign] digitpart] followed by the
    end of the text; [ds] are the digits read so far, [nfrac] of them
    after the point. *)
Definition float_exponent (ds : list Z) (nfrac : Z) (s : string)
  : option (Z * Z) :=
  match s with
  | EmptyString => Some (digits_to_Z ds, - nfrac)
  | String c s' =>
      if (code c =? 101) || (code c =? 69) then
        let '(eneg, r) := split_sign s' in
        match digitpart r with
        | Some (es, EmptyString) =>
            let x := digits_to_Z es in
            Some (digits_to_Z ds, (if eneg then - x else x) - nfrac)
        | _ => None
        end
      else None
  end.

(** [digitpart ["." [digitpart]] [exponent]] or ["." digitpart [exponent]]:
    the decimal mantissa and exponent. *)
Definition float_decimal (s : string) : option (Z * Z) :=
  match digitpart s with
  | Some (ip, r) =>
      match r with
      | String "." r' =>
          match digitpart r' with
          | Some (fp, r'') =>
              float_exponent (ip ++ fp) (Z.of_nat (length fp)) r''
          | None => float_exponent ip 0 r'
          end
      | _ => float_exponent ip 0 r
      end
  | None =>
      match s with
      | String "." r' =>
          match digitpart r' with
          | Some (fp, r'') => float_exponent fp (Z.of_nat (length fp)) r''
          | None => None
          end
      | _ => None
      end
  end.

Definition float_of_str (s : string) : result spec_float :=
  let '(neg, body) := split_sign (strip s) in
  let l := lower body in
  if String.eqb l "inf" || String.eqb l "infinity" then Ok (S754_infinity neg)
  else if String.eqb l "nan" then Ok S754_nan
  else
    match float_decimal body with
    | Some (m, e) => Ok (float_of_decimal neg m e)
    | None => Raise ValueError
    end.

(** ** [int(x)] and [float(x)] on any scalar *)

(** Truncation towards zero; [nan] and the infinities have no integer. *)
Definition int_of_float (f : spec_float) : result Z :=
  match f with
  | S754_zero _ => Ok 0
  | S754_nan => Raise ValueError
  | S754_infinity _ => Raise OverflowError
  | S754_finite s m e =>
      let mag := if 0 <=? e then Z.shiftl (Zpos m) e
                 else Z.shiftr (Zpos m) (- e) in
      Ok (if s then - mag else mag)
  end.

Definition float_of_int (z : Z) : result spec_float :=
  match binary_normalize prec emax z 0 false with
  | S754_infinity _ => Raise OverflowError
  | f => Ok f
  end.

Definition int (v : value) : result Z :=
  match v with
  | PyInt z => Ok z
  | PyFloat f => int_of_float f
  | PyStr s => int_of_str s
  | PyNone | PyDict _ => Raise TypeError
  end.

Definition float (v : value) : result spec_float :=
  match v with
  | PyInt z => float_of_int z
  | PyFloat f => Ok f
  | PyStr s => float_of_str s
  | PyNone | PyDict _ => Raise TypeError
  end.

(** [i == f] for an [int] and a [float] compares the exact values. *)
Definition int_eq_float (i : Z) (f : spec_float) : bool :=
  match f with
  | S754_zero _ => i =? 0
  | S754_nan | S754_infinity _ => false
  | S754_finite s m e =>
      let sm := if s then Zneg m else Zpos m in
      if 0 <=? e then i =? Z.shiftl sm e
      else Z.shiftl i (- e) =? sm
  end.

(** The exact value of a finite [float], as a reduced fraction. *)
Definition float_to_Q (f : spec_float) : option Q :=
  match f with
  | S754_zero _ => Some (0 # 1)%Q
  | S754_finite s m e =>
      let sm := if s then Zneg m else Zpos m in
      Some (Qred (if 0 <=? e then (sm * 2 ^ e # 1)%Q
                  else (sm # Z.to_pos (2 ^ (- e)))%Q))
  | _ => None
  end.

(** ** [os.path.join] (POSIX) *)

Definition startswith_sep (s : string) : bool :=
  match s with
  | String "/" _ => true
  | _ => false
  end.

Fixpoint endswith_sep (s : string) : bool :=
  match s with
  | EmptyString => false
  | String c EmptyString => code c =? 47
  | String _ s' => endswith_sep s'
  end.

Definition join2 (path b : string) : string :=
  if startswith_sep b then b
  else if String.eqb path "" || endswith_sep path then path ++ b
  else path ++ "/" ++ b.

Definition os_path_join (a : string) (p : list string) : string :=
  fold_left join2 p a.
Arguments os_path_join : simpl never.

(** ** Regular expressions

    A compiled pattern with one capturing group is represented by what
    [re.match(pattern, text)] yields: [None] when the pattern does not
    match at the start of [text], otherwise the text of [group(1)]. *)
Definition Pattern : Type := string -> option string.

Definition re_match (pattern : Pattern) (text : string) : option string :=
  pattern text.

Fixpoint take_while (cls : ascii -> bool) (s : string) : string :=
  match s with
  | String c s' => if cls c then String c (take_while cls s') else EmptyString
  | EmptyString => EmptyString
  end.

Fixpoint skip_prefix (lit s : string) : option string :=
  match lit, s with
  | EmptyString, _ => Some s
  | String a lit', String b s' =>
      if Ascii.eqb a b then skip_prefix lit' s' else None
  | String _ _, EmptyString => None
  end.

(** [lit(cls+)] matched at the start of [s]: the greedy run of [cls]. *)
Definition group_here (lit : string) (cls : ascii -> bool) (s : string)
  : option string :=
  match skip_prefix lit s with
  | Some r =>
      match take_while cls r with
      | EmptyString => None
      | g => Some g
      end
  | None => None
  end.

(** The patterns of the shape [.*lit(cls+)]: the greedy [.*] (which does
    not cross a newline) makes the last position where [lit(cls+)]
    matches win. *)
Fixpoint re_dotstar_group (lit : string) (cls : ascii -> bool) (s : string)
  : option string :=
  match s with
  | EmptyString => group_here lit cls s
  | String c s' =>
      match (if code c =? 10 then None else re_dotstar_group lit cls s') with
      | Some g => Some g
      | None => group_here lit cls s
      end
  end.

(** [fnmatch]-style wild cards: [*] stands for any text, [?] for one
    character. *)
Fixpoint fnmatch_from (fuel : nat) (pat name : string) : bool :=
  match fuel with
  | O => false
  | S fuel' =>
      match pat, name with
      | EmptyString, EmptyString => true
      | EmptyString, String _ _ => false
      | String "*" pat', EmptyString => fnmatch_from fuel' pat' name
      | String "*" pat', String _ name' =>
          fnmatch_from fuel' pat' name || fnmatch_from fuel' pat name'
      | String _ _, EmptyString => false
      | String p pat', String c name' =>
          (Ascii.eqb p "?" || Ascii.eqb p c) && fnmatch_from fuel' pat' name'
      end
  end.

Definition fnmatch (name pat : string) : bool :=
  fnmatch_from (S (String.length pat + String.length name)) pat name.

End Py.

(* ===================================================================== *)
(** * Effects: state, exceptions and a trace of outside calls             *)
(* ===================================================================== *)

Module Eff.
Import Py.

(** A call made to the world outside the interpreter. *)
Inductive event : Type :=
  | FsExists (path : string)          (* os.path.exists(path) *)
  | FsGlob (pathname : string)        (* glob.glob(pathname) *)
  | ReadTable (path : string)         (* pandas.read_table(path, ...) *)
  | EclSumLoad (filename : string)    (* ert.ecl.EclSum(filename) *)
  | LogWarn (msg arg : string).       (* logger.warn(msg, arg) *)

Definition is_fs_read (e : event) : bool :=
  match e with
  | LogWarn _ _ => false
  | _ => true
  end.

Definition is_decode (e : event) : bool :=
  match e with
  | EclSumLoad _ => true
  | _ => false
  end.

(** The number of times the summary decoder was invoked in a trace. *)
Definition decode_count (tr : list event) : nat :=
  length (List.filter is_decode tr).

(** States that carry a trace. *)
Class Traced (S : Type) : Type := record : event -> S -> S.

#[global] Instance Traced_trace : Traced (list event) :=
  fun e tr => (tr ++ [e])%list.

(** Computations over a state [S] that return an [A] or raise. The state
    reached when an exception is raised is kept: what was assigned before
    the [raise] stays assigned. *)
Definition M (S A : Type) : Type := S -> result A * S.

Definition ret {S A} (a : A) : M S A := fun s => (Ok a, s).

Definition raise {S A} (e : exn) : M S A := fun s => (Raise e, s).

Definition bind {S A B} (m : M S A) (f : A -> M S B) : M S B :=
  fun s =>
    match m s with
    | (Ok a, s') => f a s'
    | (Raise e, s') => (Raise e, s')
    end.

Definition lift {S A} (r : result A) : M S A := fun s => (r, s).

Definition gets {S A} (f : S -> A) : M S A := fun s => (Ok (f s), s).

Definition modify {S} (f : S -> S) : M S unit := fun s => (Ok tt, f s).

Definition emit {S} `{Traced S} (e : event) : M S unit := modify (record e).

End Eff.

Notation "'do' x <- m ; k" := (Eff.bind m (fun x => k))
  (at level 10, x name, m at level 100, k at level 200,
   format "'[v' 'do'  x  <-  m ; '/' k ']'").

(* ===================================================================== *)
(** * The collaborators: pandas, the summary decoder, the file system     *)
(* ===================================================================== *)

(** The part of [pandas.DataFrame] that [get_smryvalues] builds: named
    columns of numbers over an index of report dates. *)
Module pd.
Import Py.

Record DataFrame : Type := {
  columns : gmap string (list spec_float);
  index : list Z
}.

(** [pd.DataFrame()] *)
Definition empty : DataFrame := {| columns := ∅; index := [] |}.

(** [pd.DataFrame(data=data, index=index)]: every column must be as long
    as the index. *)
Definition DataFrame_of (data : gmap string (list spec_float))
    (idx : list Z) : result DataFrame :=
  if bool_decide (map_Forall (fun _ v => length v = length idx) data)
  then Ok {| columns := data; index := idx |}
  else Raise ValueError.

End pd.

Module World.
Import Py Eff.

(** An [ert.ecl.EclSum] object, by the methods the module calls on it.
    Values and dates are the ones at report steps ([report_only=True]). *)
Record EclSum : Type := {
  keys : option string -> list string;
  has_numpy_vector : bool;             (* 'numpy_vector' in dir(obj) *)
  numpy_vector : string -> result (list spec_float);
  get_values : string -> result (list spec_float);
  get_dates : list Z
}.

(** What the outside world answers at the time of a call. *)
Record Env : Type := {
  abspath : string -> string;                        (* os.path.abspath *)
  path_exists : string -> bool;                      (* os.path.exists *)
  glob_result : string -> list string;               (* glob.glob *)
  (* pd.read_table(path, sep=r'\s+', index_col=0, dtype=str,
                   header=None)[1].to_dict() *)
  table_dict : string -> result (list (string * value));
  decode : string -> result EclSum                   (* ert.ecl.EclSum *)
}.

Section Calls.
Context {S : Type} `{Traced S}.
Variable env : Env.

Definition os_path_exists (path : string) : M S bool :=
  do _ <- emit (FsExists path);
  ret (path_exists env path).

Definition glob_glob (pathname : string) : M S (list string) :=
  do _ <- emit (FsGlob pathname);
  ret (glob_result env pathname).

Definition pd_read_table_dict (path : string)
  : M S (list (string * value)) :=
  do _ <- emit (ReadTable path);
  lift (table_dict env path).

Definition ert_ecl_EclSum (filename : string) : M S EclSum :=
  do _ <- emit (EclSumLoad filename);
  lift (decode env filename).

Definition logger_warn (msg arg : string) : M S unit :=
  emit (LogWarn msg arg).
End Calls.

(** The truth value of an [EclSum] object: it is bound to a loaded
    summary, hence true. *)
Definition EclSum_bool (h : EclSum) : bool := true.

(** [bool(x)] for [x] either [None] or an [EclSum]. *)
Definition truth (x : option EclSum) : bool :=
  match x with
  | Some h => EclSum_bool h
  | None => false
  end.

End World.

(* ===================================================================== *)
(** * realization.py                                                       *)
(* ===================================================================== *)

Module Realization.
Import Py Eff World.

(** [seq[0]] *)
Definition item0 {A} (l : list A) : result A :=
  match l with
  | x :: _ => Ok x
  | [] => Raise IndexError
  end.

(** [bool(v)] *)
Definition truthy (v : value) : bool :=
  match v with
  | PyInt z => negb (z =? 0)
  | PyFloat (S754_zero _) => false
  | PyFloat _ => true
  | PyStr s => negb (String.eqb s "")
  | PyNone => false
  | PyDict d => match d with [] => false | _ => true end
  end.

(** ** parse_number *)

Definition parse_number (value : Py.value) : result Py.value :=
  match value with
  | PyInt _ => Ok value
  | PyFloat f =>
      rbind (int value) (fun i =>
      if int_eq_float i f then rbind (int value) (fun i' => Ok (PyInt i'))
      else Ok value)
  | _ =>
      try_except (rbind (int value) (fun i => Ok (PyInt i))) ValueError
        (try_except (rbind (float value) (fun f => Ok (PyFloat f))) ValueError
           (Ok value))
  end.

(** ** Dictionaries in insertion order *)

Fixpoint dict_get (d : list (string * value)) (key : string) : result value :=
  match d with
  | [] => Raise KeyError
  | (k, v) :: d' => if String.eqb k key then Ok v else dict_get d' key
  end.

Fixpoint dict_set (d : list (string * value)) (key : string) (v : value)
  : list (string * value) :=
  match d with
  | [] => [(key, v)]
  | (k, w) :: d' =>
      if String.eqb k key then (k, v) :: d' else (k, w) :: dict_set d' key v
  end.

(** ** ScratchRealization *)

Module ScratchRealization.

(** A row of the [files] dataframe; [BASENAME] is left empty (NaN) by the
    rows appended here. *)
Record FileRow : Type := {
  FULLPATH : string;
  FILETYPE : string;
  LOCALPATH : string;
  BASENAME : option string
}.

Record t : Type := {
  _origpath : string;
  files : list FileRow;
  _eclsum : option EclSum;
  index : Z
}.

(** The object a method runs on, with the trace of outside calls. *)
Record heap : Type := { self : t; trace : list event }.

#[global] Instance Traced_heap : Traced heap :=
  fun e h => {| self := self h; trace := (trace h ++ [e])%list |}.

(** The object after [self._eclsum = v]. *)
Definition with__eclsum (r : t) (v : option EclSum) : t :=
  {| _origpath := _origpath r; files := files r; _eclsum := v;
     index := index r |}.

Definition set__eclsum (v : option EclSum) : M heap unit :=
  modify (fun h => {| self := with__eclsum (self h) v; trace := trace h |}).

(** [re.compile(r'.*realization-(\d+)')] *)
Definition default_realidxregexp : Pattern :=
  re_dotstar_group "realization-" is_digit.

Definition __init__ (env : Env) (path : string) (realidxregexp : Pattern)
  : M (list event) t :=
  let _origpath := path in
  let files : list FileRow := [] in
  let _eclsum : option EclSum := None in
  let abspath := abspath env path in
  let realidxmatch := re_match realidxregexp abspath in
  do index <- match realidxmatch with
              | Some group1 => lift (int (PyStr group1))
              | None =>
                  do _ <- logger_warn "Realization %s not valid, skipping"
                            abspath;
                  raise ValueError
              end;
  do found <- os_path_exists env (os_path_join abspath ["STATUS"]);
  do files <- (if found then
                 ret (files ++ [{| LOCALPATH := "STATUS";
                                   FILETYPE := "STATUS";
                                   FULLPATH := os_path_join abspath ["STATUS"];
                                   BASENAME := None |}])%list
               else
                 do _ <- logger_warn "Invalid realization, no STATUS file, %s"
                           abspath;
                 raise ValueError);
  do found <- os_path_exists env (os_path_join abspath ["jobs.json"]);
  let files := if found then
                 (files ++ [{| LOCALPATH := "jobs.json";
                               FILETYPE := "json";
                               FULLPATH := os_path_join abspath ["jobs.json"];
                               BASENAME := None |}])%list
               else files in
  do found <- os_path_exists env (os_path_join abspath ["parameters.txt"]);
  let files := if found then
                 (files ++ [{| LOCALPATH := "parameters.txt";
                               FILETYPE := "txt";
                               FULLPATH :=
                                 os_path_join abspath ["parameters.txt"];
                               BASENAME := None |}])%list
               else files in
  ret {| _origpath := _origpath; files := files; _eclsum := _eclsum;
         index := index |}.

(** [for key in params: params[key] = parse_number(params[key])] *)
Definition convert_values (params : list (string * value))
  : result (list (string * value)) :=
  fold_left
    (fun acc key =>
       rbind acc (fun params =>
       rbind (dict_get params key) (fun v =>
       rbind (parse_number v) (fun v' =>
       Ok (dict_set params key v')))))
    (map fst params) (Ok params).

Definition get_parameters (env : Env) (convert_numeric : bool)
  : M heap (list (string * value)) :=
  do files <- gets (fun h => files (self h));
  let paramfile :=
    List.filter (fun r => String.eqb (LOCALPATH r) "parameters.txt") files in
  do fullpath <- lift (item0 (map FULLPATH paramfile));
  do params <- pd_read_table_dict env fullpath;
  if convert_numeric then lift (convert_values params)
  else ret params.

(** The [parameters] property passes the object itself, which is true, as
    [convert_numeric]. *)
Definition parameters (env : Env) : M heap (list (string * value)) :=
  get_parameters env true.

Definition get_eclsum (env : Env) : M heap (option EclSum) :=
  do cached <- gets (fun h => _eclsum (self h));
  if truth cached then ret cached
  else
    do files <- gets (fun h => files (self h));
    let unsmry_file_row :=
      List.filter (fun r => String.eqb (FILETYPE r) "UNSMRY") files in
    do unsmry_filename <-
      (if Nat.eqb (length unsmry_file_row) 1 then
         lift (item0 (map FULLPATH unsmry_file_row))
       else
         do origpath <- gets (fun h => _origpath (self h));
         let unsmry_fileguess :=
           os_path_join origpath ["eclipse/model"; "*.UNSMRY"] in
         do found <- glob_glob env unsmry_fileguess;
         lift (item0 found));
    do present <- os_path_exists env unsmry_filename;
    if negb present then ret None
    else
      do eclsum <- ert_ecl_EclSum env unsmry_filename;
      do _ <- set__eclsum (Some eclsum);
      gets (fun h => _eclsum (self h)).

(** The [props_wildcard] argument: [None], one text or a list. *)
Inductive wildcards : Type :=
  | WNone
  | WStr (s : string)
  | WList (l : list (option string)).

Definition wildcards_truth (w : wildcards) : bool :=
  match w with
  | WNone => false
  | WStr s => negb (String.eqb s "")
  | WList l => match l with [] => false | _ => true end
  end.

(** The patterns iterated over, after the two normalising steps. *)
Definition wildcard_list (props_wildcard : wildcards) : list (option string) :=
  let props_wildcard :=
    if negb (wildcards_truth props_wildcard) then WList [None]
    else props_wildcard in
  match props_wildcard with
  | WStr s => [Some s]
  | WList l => l
  | WNone => []
  end.

(** [props = set(); for prop in ...: props = props.union(set(keys(prop)))] *)
Definition resolve_props (eclsum : EclSum) (patterns : list (option string))
  : gset string :=
  fold_left (fun props prop => props ∪ list_to_set (keys eclsum prop))
    patterns ∅.

(** [{prop: f(prop) for prop in props}] *)
Definition dict_of_props (props : gset string)
    (f : string -> result (list spec_float))
  : result (gmap string (list spec_float)) :=
  fold_left
    (fun acc prop =>
       rbind acc (fun data => rbind (f prop) (fun v => Ok (<[prop := v]> data))))
    (elements props) (Ok ∅).

Definition get_smryvalues (env : Env) (props_wildcard : wildcards)
  : M heap pd.DataFrame :=
  do cached <- gets (fun h => _eclsum (self h));
  do _ <- (if negb (truth cached) then
             do _ <- get_eclsum env; ret tt
           else ret tt);
  do cached <- gets (fun h => _eclsum (self h));
  if negb (truth cached) then ret pd.empty
  else
    match cached with
    | None => raise AttributeError   (* not reached: [None] is false *)
    | Some eclsum =>
        let props := resolve_props eclsum (wildcard_list props_wildcard) in
        do data <- lift (if has_numpy_vector eclsum
                         then dict_of_props props (numpy_vector eclsum)
                         else dict_of_props props (get_values eclsum));
        let dates := get_dates eclsum in
        lift (pd.DataFrame_of data dates)
    end.

End ScratchRealization.

(** ** VirtualRealization

    An instance is given by its attribute dictionary. *)
Module VirtualRealization.

Definition __init__ (path description : value)
  : M (list event) (gmap string value) :=
  let self : gmap string value := ∅ in
  let self := <["_description" := PyStr ""]> self in
  let self := if truthy description
              then <["_description" := description]> self else self in
  ret self.

End VirtualRealization.

End Realization.

(* ===================================================================== *)
(** * Clients and test doubles                                            *)
(* ===================================================================== *)

Module Client.
Import Py Eff World Realization Realization.ScratchRealization.

(** A call of one of the accessors of a [ScratchRealization]. *)
Inductive call : Type :=
  | Call_get_eclsum
  | Call_get_smryvalues (props_wildcard : wildcards)
  | Call_get_parameters (convert_numeric : bool).

(** The heap after a call; an exception leaves the object as it was when
    raised and control returns to the caller. *)
Definition run_call (env : Env) (c : call) (h : heap) : heap :=
  match c with
  | Call_get_eclsum => snd (get_eclsum env h)
  | Call_get_smryvalues w => snd (get_smryvalues env w h)
  | Call_get_parameters b => snd (get_parameters env b h)
  end.

(** A sequence of calls, each made in the world as it is at that time. *)
Definition run_calls (cs : list (Env * call)) (h : heap) : heap :=
  fold_left (fun h ec => run_call (fst ec) (snd ec) h) cs h.

(** Modelled from the spec: the binary summary decoder ([ert.ecl.EclSum])
    is an outside collaborator that enumerates the vector names,
    optionally filtered by a wild-card pattern, and gives a vector's values
    and the dates at the report steps. This double holds the vectors in a
    list. *)
Definition summary_of (vectors : list (string * list spec_float))
    (dates : list Z) : EclSum :=
  let vector key :=
    match List.find (fun kv => String.eqb (fst kv) key) vectors with
    | Some kv => Ok (snd kv)
    | None => Raise KeyError
    end in
  {| keys := fun pattern =>
       match pattern with
       | None => map fst vectors
       | Some p => List.filter (fun name => fnmatch name p) (map fst vectors)
       end;
     has_numpy_vector := true;
     numpy_vector := vector;
     get_values := vector;
     get_dates := dates |}.

(** A world given by the paths that exist, with one decodable summary. *)
Definition world_of (present : list string)
    (parameters : result (list (string * value)))
    (summary : result EclSum) : Env :=
  {| abspath := fun p => p;
     path_exists := fun p => existsb (String.eqb p) present;
     glob_result := fun pathname =>
       List.filter (fun p => fnmatch p pathname) present;
     table_dict := fun _ => parameters;
     decode := fun _ => summary |}.

(** Every character of [s] is in the class [cls]. *)
Definition all_in (cls : ascii -> bool) (s : string) : Prop :=
  forall c, In c (list_ascii_of_string s) -> cls c = true.

(** The number of rows of the registry tagged as the status file. *)
Definition status_rows (r : ScratchRealization.t) : nat :=
  length (List.filter (fun row => String.eqb (FILETYPE row) "STATUS") (files r)).

(** The file name [get_eclsum] settles on: the registered summary file
    when the registry has exactly one, the first result of the glob
    otherwise. *)
Inductive resolves (env : Env) (r : ScratchRealization.t) : string -> Prop :=
  | resolves_registered (row : FileRow) :
      List.filter (fun x => String.eqb (FILETYPE x) "UNSMRY") (files r) = [row] ->
      resolves env r (FULLPATH row)
  | resolves_globbed (first : string) (others : list string) :
      length (List.filter (fun x => String.eqb (FILETYPE x) "UNSMRY") (files r))
        <> 1%nat ->
      glob_result env
        (os_path_join (_origpath r) ["eclipse/model"; "*.UNSMRY"])
        = first :: others ->
      resolves env r first.

(** Construction raises. *)
Definition init_raises (env : Env) (path : string) (pattern : Pattern)
    (tr : list event) : Prop :=
  exists e tr', __init__ env path pattern tr = (Raise e, tr').

(** ** Worlds and objects used as examples *)

(** [re.compile(r'.*realization-(\w+)')] *)
Definition word_realidxregexp : Pattern :=
  re_dotstar_group "realization-" is_word.

(** A run directory with only the status file. *)
Definition bare_world : Env :=
  world_of ["/scratch/realization-0/STATUS"] (Raise IOError) (Raise IOError).

(** A directory named after a case, not a number, with a status file. *)
Definition named_world : Env :=
  world_of ["/scratch/realization-base/STATUS"] (Raise IOError) (Raise IOError).

(** The positive [float] [m * 2^e]. *)
Definition dyadic (m : positive) (e : Z) : spec_float := S754_finite false m e.

(** A summary with three vectors over two report dates. *)
Definition three_vectors : EclSum :=
  summary_of [("FOPT", [S754_zero false; dyadic 5 1]);
              ("FOPR", [dyadic 1 0; dyadic 3 0]);
              ("WOPR", [dyadic 1 0; dyadic 1 1])] [17532; 17563].

(** A complete run directory. *)
Definition full_world : Env :=
  world_of ["/scratch/realization-12/STATUS";
            "/scratch/realization-12/parameters.txt";
            "/scratch/realization-12/eclipse/model/R.UNSMRY"]
    (Ok [("FWL", PyStr "1700"); ("MULTZ", PyStr "0.5")])
    (Ok three_vectors).

Definition status_row (dir : string) : FileRow :=
  {| FULLPATH := os_path_join dir ["STATUS"]; FILETYPE := "STATUS";
     LOCALPATH := "STATUS"; BASENAME := None |}.

Definition parameters_row (dir : string) : FileRow :=
  {| FULLPATH := os_path_join dir ["parameters.txt"]; FILETYPE := "txt";
     LOCALPATH := "parameters.txt"; BASENAME := None |}.

(** The object constructed in [bare_world], after the three look-ups. *)
Definition bare_heap : heap :=
  {| self := {| _origpath := "/scratch/realization-0";
                files := [status_row "/scratch/realization-0"];
                _eclsum := None; index := 0 |};
     trace := [FsExists "/scratch/realization-0/STATUS";
               FsExists "/scratch/realization-0/jobs.json";
               FsExists "/scratch/realization-0/parameters.txt"] |}.

(** The object constructed in [full_world]. *)
Definition full_heap : heap :=
  {| self := {| _origpath := "/scratch/realization-12";
                files := [status_row "/scratch/realization-12";
                          parameters_row "/scratch/realization-12"];
                _eclsum := None; index := 12 |};
     trace := [FsExists "/scratch/realization-12/STATUS";
               FsExists "/scratch/realization-12/jobs.json";
               FsExists "/scratch/realization-12/parameters.txt"] |}.

(** The same object with its summary loaded. *)
Definition loaded_heap : heap :=
  {| self := with__eclsum (self full_heap) (Some three_vectors);
     trace := trace full_heap |}.

(** The heap holding a freshly constructed object, when construction
    succeeds. *)
Definition constructed (env : Env) (path : string) : option heap :=
  match __init__ env path default_realidxregexp [] with
  | (Ok r, tr) => Some {| self := r; trace := tr |}
  | (Raise _, _) => None
  end.

End Client.

(* ===================================================================== *)
(** * Further vocabulary                                                   *)
(* ===================================================================== *)

Module Vocabulary.
Import Py Eff World Realization Realization.ScratchRealization.

(** [str(n)]: the decimal digits of an integer, after a minus sign when it
    is negative. *)
Definition str_of_int (n : Z) : string := NilZero.string_of_int (Z.to_int n).

(** The number a run of digits writes. *)
Definition number_of (g : string) : Z :=
  digits_to_Z (map digit_value (list_ascii_of_string g)).

(** [lit in s] *)
Fixpoint contains (lit s : string) : bool :=
  match skip_prefix lit s with
  | Some _ => true
  | None =>
      match s with
      | EmptyString => false
      | String _ s' => contains lit s'
      end
  end.

Definition is_newline (c : ascii) : bool := code c =? 10.

(** The exact value of a number. *)
Definition numeric_value (v : value) : option Q :=
  match v with
  | PyInt z => Some (z # 1)%Q
  | PyFloat f => float_to_Q f
  | _ => None
  end.

(** The method that reads a vector from a summary. *)
Definition vector_of (eclsum : EclSum) : string -> result (list spec_float) :=
  if has_numpy_vector eclsum then numpy_vector eclsum else get_values eclsum.

(** The heap of a constructed object. *)
Definition heap_of (r : ScratchRealization.t) (tr : list event) : heap :=
  {| self := r; trace := tr |}.

(** The rows of the registry tagged as summary files. *)
Definition unsmry_rows (r : ScratchRealization.t) : list FileRow :=
  List.filter (fun x => String.eqb (FILETYPE x) "UNSMRY") (files r).

(** The rows of the registry for parameters.txt. *)
Definition parameters_rows (r : ScratchRealization.t) : list FileRow :=
  List.filter (fun x => String.eqb (LOCALPATH x) "parameters.txt") (files r).

(** The glob pattern [get_eclsum] falls back on. *)
Definition unsmry_fileguess (r : ScratchRealization.t) : string :=
  os_path_join (_origpath r) ["eclipse/model"; "*.UNSMRY"].

(** The registry row of [jobs.json] under a directory. *)
Definition jobs_row (dir : string) : FileRow :=
  {| FULLPATH := os_path_join dir ["jobs.json"]; FILETYPE := "json";
     LOCALPATH := "jobs.json"; BASENAME := None |}.

(** The three files [__init__] looks for. *)
Definition expected_files : list string :=
  ["STATUS"; "jobs.json"; "parameters.txt"].

(** The existence checks of a successful construction, in order. *)
Definition discovery (dir : string) : list event :=
  map (fun name => FsExists (os_path_join dir [name])) expected_files.

(** The characters an integer literal is written with: blanks, signs,
    digits and the underscore. *)
Definition is_int_char (c : ascii) : bool :=
  is_space c || is_digit c || (code c =? 43) || (code c =? 45)
  || (code c =? 95).

(** What [get_eclsum] returns once it has settled on a file name. *)
Definition load_outcome (env : Env) (filename : string)
  : result (option EclSum) :=
  if path_exists env filename then
    match decode env filename with
    | Ok eclsum => Ok (Some eclsum)
    | Raise e => Raise e
    end
  else Ok None.

(** Outside calls that only test or report: no content is read. *)
Definition is_probe (e : event) : bool :=
  match e with
  | FsExists _ | LogWarn _ _ => true
  | _ => false
  end.

Definition is_glob (e : event) : bool :=
  match e with
  | FsGlob _ => true
  | _ => false
  end.

End Vocabulary.

Import Py Eff World Realization Realization.ScratchRealization Client.
Import Vocabulary.

(* ===================================================================== *)
(** * Properties of the builtins                                          *)
(* ===================================================================== *)

Section Builtins.

(** [int(text)] returns or raises [ValueError], nothing else. *)
Lemma int_of_str_outcome (s : string) :
  (exists z, int_of_str s = Ok z) \/ int_of_str s = Raise ValueError.
Proof.
  unfold int_of_str.
  destruct (split_sign (strip s)) as [neg body].
  destruct (digitpart body) as [[ds [|c r]]|]; eauto.
Qed.

Lemma float_of_str_outcome (s : string) :
  (exists f, float_of_str s = Ok f) \/ float_of_str s = Raise ValueError.
Proof.
  unfold float_of_str.
  destruct (split_sign (strip s)) as [neg body].
  destruct (String.eqb (lower body) "inf" || String.eqb (lower body) "infinity");
    [eauto|].
  destruct (String.eqb (lower body) "nan"); [eauto|].
  destruct (float_decimal body) as [[m e]|]; eauto.
Qed.

(** The text branch of [parse_number] spelled out. *)
Lemma parse_number_text (s : string) :
  parse_number (PyStr s) =
    match int_of_str s with
    | Ok i => Ok (PyInt i)
    | Raise _ =>
        match float_of_str s with
        | Ok f => Ok (PyFloat f)
        | Raise _ => Ok (PyStr s)
        end
    end.
Proof.
  unfold parse_number, try_except, rbind, int, float.
  destruct (int_of_str_outcome s) as [[z ->] | ->]; [reflexivity|].
  destruct (float_of_str_outcome s) as [[f ->] | ->]; reflexivity.
Qed.

(** A finite [float] has an integer part. *)
Lemma int_of_float_finite (f : spec_float) :
  is_Some (float_to_Q f) -> exists z, int_of_float f = Ok z.
Proof.
  destruct f; simpl; intros [q Hq]; try discriminate; eauto.
Qed.

(** [parse_number] returns on every [int], every finite [float] and
    every text. *)
Lemma parse_number_returns (v : value) :
  match v with
  | PyInt _ | PyStr _ => True
  | PyFloat f => is_Some (float_to_Q f)
  | PyNone | PyDict _ => False
  end ->
  exists r, parse_number v = Ok r.
Proof.
  destruct v as [z|f|s| |d]; intros Hv; try contradiction.
  - eexists; reflexivity.
  - destruct (int_of_float_finite f Hv) as [z Hz].
    unfold parse_number, rbind, int. rewrite Hz.
    destruct (int_eq_float z f); eauto.
  - rewrite parse_number_text.
    destruct (int_of_str s); [eauto|].
    destruct (float_of_str s); eauto.
Qed.

End Builtins.

(* ===================================================================== *)
(** * parse_number                                                         *)
(* ===================================================================== *)

(** C4, as stated, fails: the text ["3.0"] is not turned into the integer
    3. [int("3.0")] raises [ValueError], [float("3.0")] succeeds and its
    result is returned as it is. *)
Lemma parse_number_text_3_0_not_int :
  parse_number (PyStr "3.0") <> Ok (PyInt 3).
Proof. vm_compute. discriminate. Qed.

(** C4, amended: [parse_number "3"] is the integer 3, [parse_number "3.0"]
    is the real 3.0 (a text that reads as a real stays a real, also when it
    has no fractional part), [parse_number "3.5"] is the real 3.5,
    [parse_number "abc"] is the text unchanged, [parse_number 2.0] is the
    integer 2 and [parse_number 5] is 5; for every text the integer
    reading is tried first, then the real one, and the text itself is
    returned when both raise. *)
Theorem parse_number_examples :
  parse_number (PyStr "3") = Ok (PyInt 3)
  /\ (exists f, parse_number (PyStr "3.0") = Ok (PyFloat f)
                /\ float_to_Q f = Some (3 # 1)%Q)
  /\ (exists f, parse_number (PyStr "3.5") = Ok (PyFloat f)
                /\ float_to_Q f = Some (7 # 2)%Q)
  /\ parse_number (PyStr "abc") = Ok (PyStr "abc")
  /\ (exists f, float_of_int 2 = Ok f
                /\ parse_number (PyFloat f) = Ok (PyInt 2))
  /\ parse_number (PyInt 5) = Ok (PyInt 5)
  /\ (forall s,
        parse_number (PyStr s) =
          match int_of_str s with
          | Ok i => Ok (PyInt i)
          | Raise _ =>
              match float_of_str s with
              | Ok f => Ok (PyFloat f)
              | Raise _ => Ok (PyStr s)
              end
          end).
Proof.
  repeat split.
  - eexists; split; vm_compute; reflexivity.
  - eexists; split; vm_compute; reflexivity.
  - eexists; split; vm_compute; reflexivity.
  - apply parse_number_text.
Qed.

(** C5: [parse_number] does not return on every real: on the [float]
    values [nan] and [inf], [int(value)] raises and nothing catches it.
    Such a value reaches [parse_number] from [get_parameters] when the
    table read from [parameters.txt] holds a missing value. *)
Theorem parse_number_raises_on_nan_and_inf :
  parse_number (PyFloat S754_nan) = Raise ValueError
  /\ parse_number (PyFloat (S754_infinity false)) = Raise OverflowError
  /\ float_of_str "nan" = Ok S754_nan
  /\ (let row := {| FULLPATH := "/scratch/realization-0/parameters.txt";
                    FILETYPE := "txt"; LOCALPATH := "parameters.txt";
                    BASENAME := None |} in
      let h := {| self := {| _origpath := "/scratch/realization-0";
                             files := [row]; _eclsum := None; index := 0 |};
                  trace := [] |} in
      let env := world_of ["/scratch/realization-0/parameters.txt"]
                   (Ok [("FWL", PyStr "1700"); ("MULTZ", PyFloat S754_nan)])
                   (Raise IOError) in
      fst (get_parameters env true h) = Raise ValueError
      /\ fst (get_parameters env false h)
         = Ok [("FWL", PyStr "1700"); ("MULTZ", PyFloat S754_nan)]).
Proof. repeat split. Qed.

(* ===================================================================== *)
(** * ScratchRealization.__init__                                          *)
(* ===================================================================== *)

Section IndexPattern.

Lemma take_while_all_in cls s : all_in cls (take_while cls s).
Proof.
  induction s as [|c s IH]; intros x; simpl; [tauto|].
  destruct (cls c) eqn:Hc; simpl; [|tauto].
  intros [<- | Hx]; [exact Hc | exact (IH x Hx)].
Qed.

(** The group captured by [.*lit(cls+)] is a non-empty run of [cls]. *)
Lemma re_dotstar_group_run lit cls s g :
  re_dotstar_group lit cls s = Some g -> g <> "" /\ all_in cls g.
Proof.
  assert (Hhere : forall r, group_here lit cls r = Some g ->
                            g <> "" /\ all_in cls g).
  { intros r. unfold group_here.
    destruct (skip_prefix lit r) as [r'|]; [|discriminate].
    destruct (take_while cls r') eqn:Ht; [discriminate|].
    intros [= <-]. split; [discriminate|].
    rewrite <- Ht. apply take_while_all_in. }
  induction s as [|c s IH]; simpl; [apply Hhere|].
  destruct (code c =? 10).
  - apply Hhere.
  - destruct (re_dotstar_group lit cls s) as [g'|].
    + intros [= ->]. apply IH. reflexivity.
    + apply Hhere.
Qed.

Lemma digit_not_space c : is_digit c = true -> is_space c = false.
Proof. unfold is_digit, is_space. lia. Qed.

Lemma digit_not_sign c :
  is_digit c = true -> c <> "-"%char /\ c <> "+"%char.
Proof.
  intros Hc. split; intros ->; vm_compute in Hc; discriminate.
Qed.

Lemma rstrip_digits s : all_in is_digit s -> rstrip s = s.
Proof.
  induction s as [|c s IH]; intros Hs; [reflexivity|]. simpl.
  rewrite IH by (intros x Hx; apply Hs; right; exact Hx).
  destruct s; [|reflexivity].
  rewrite digit_not_space; [reflexivity|]. apply Hs. left. reflexivity.
Qed.

Lemma digits_tail_digits s :
  all_in is_digit s -> exists ds, digits_tail s = (ds, "").
Proof.
  induction s as [|c s IH]; intros Hs; simpl; [eauto|].
  rewrite (Hs c) by (left; reflexivity).
  destruct IH as [ds ->]; [intros x Hx; apply Hs; right; exact Hx|].
  eauto.
Qed.

(** [int] accepts every non-empty run of digits. *)
Lemma int_of_str_digits g :
  g <> "" -> all_in is_digit g -> exists z, int_of_str g = Ok z.
Proof.
  intros Hne Hg. destruct g as [|c g]; [congruence|].
  assert (Hc : is_digit c = true) by (apply Hg; left; reflexivity).
  unfold int_of_str, strip.
  assert (Hl : lstrip (String c g) = String c g).
  { simpl. rewrite (digit_not_space c Hc). reflexivity. }
  rewrite Hl, (rstrip_digits _ Hg).
  assert (Hs : split_sign (String c g) = (false, String c g)).
  { destruct (digit_not_sign c Hc) as [Hm Hp]. unfold split_sign.
    destruct c as [[] [] [] [] [] [] [] []]; try reflexivity; congruence. }
  rewrite Hs. unfold digitpart. rewrite Hc.
  destruct (digits_tail_digits g) as [ds ->];
    [intros x Hx; apply Hg; right; exact Hx|].
  eauto.
Qed.

(** With the default pattern the captured group always reads as an
    integer. *)
Lemma default_group_is_int text g :
  re_match default_realidxregexp text = Some g ->
  exists z, int_of_str g = Ok z.
Proof.
  unfold re_match, default_realidxregexp. intros Hm.
  destruct (re_dotstar_group_run _ _ _ _ Hm) as [Hne Hall].
  exact (int_of_str_digits g Hne Hall).
Qed.

End IndexPattern.

(** C1, as stated, fails: with an index pattern whose group captures
    [base], the pattern matches and the status file is there, yet
    construction raises, as [int("base")] does. *)
Lemma init_raises_on_matching_pattern :
  ~ (init_raises named_world "/scratch/realization-base" word_realidxregexp []
     <-> (re_match word_realidxregexp
            (abspath named_world "/scratch/realization-base") = None
          \/ path_exists named_world
               (os_path_join (abspath named_world "/scratch/realization-base")
                  ["STATUS"]) = false)).
Proof.
  intros [Hraise _].
  destruct Hraise as [Hm | Hs].
  - exists ValueError, []. reflexivity.
  - vm_compute in Hm. discriminate.
  - vm_compute in Hs. discriminate.
Qed.

(** C1, amended: construction of a [ScratchRealization] raises if and only
    if the index pattern fails to match the absolute path, or the text of
    its group does not read as an integer, or the STATUS file is absent;
    otherwise it succeeds, and whenever it succeeds the registry holds
    exactly one row tagged STATUS. With the default pattern the group
    always reads as an integer, so construction then raises if and only if
    the pattern fails to match or the STATUS file is absent. *)
Theorem init_raises_iff (env : Env) (path : string) (realidxregexp : Pattern)
    (tr : list event) :
  let abs := abspath env path in
  let status := os_path_join abs ["STATUS"] in
  (init_raises env path realidxregexp tr <->
     (re_match realidxregexp abs = None
      \/ (exists g, re_match realidxregexp abs = Some g
                    /\ int_of_str g = Raise ValueError)
      \/ path_exists env status = false))
  /\ (init_raises env path realidxregexp tr
      \/ exists r tr', __init__ env path realidxregexp tr = (Ok r, tr'))
  /\ (forall r tr', __init__ env path realidxregexp tr = (Ok r, tr') ->
        status_rows r = 1%nat)
  /\ (init_raises env path default_realidxregexp tr <->
        (re_match default_realidxregexp abs = None
         \/ path_exists env status = false)).
Proof.
  intros abs status.
  assert (Hgen : forall pattern,
    (init_raises env path pattern tr <->
       (re_match pattern abs = None
        \/ (exists g, re_match pattern abs = Some g
                      /\ int_of_str g = Raise ValueError)
        \/ path_exists env status = false))
    /\ (init_raises env path pattern tr
        \/ exists r tr', __init__ env path pattern tr = (Ok r, tr'))
    /\ (forall r tr', __init__ env path pattern tr = (Ok r, tr') ->
          status_rows r = 1%nat)).
  { intros pattern. unfold init_raises, __init__.
    fold abs. fold status.
    unfold bind, ret, raise, lift, logger_warn, os_path_exists, emit,
      modify, int.
    generalize (path_exists env (os_path_join abs ["jobs.json"])).
    generalize (path_exists env (os_path_join abs ["parameters.txt"])).
    intros txt json.
    destruct (re_match pattern abs) as [g|] eqn:Hm; simpl.
    - destruct (int_of_str_outcome g) as [[z Hz] | Hz]; rewrite Hz; simpl.
      + destruct (path_exists env status) eqn:Hs; simpl.
        * repeat split.
          -- intros (e & tr' & He). discriminate.
          -- intros [Hf | [(g' & [= <-] & Hg') | Hf]]; congruence.
          -- right. eauto.
          -- intros r tr' [= <- _]. destruct json, txt; reflexivity.
        * repeat split; eauto 6; try discriminate.
      + repeat split; eauto 8; try discriminate.
    - repeat split; eauto 8; try discriminate. }
  destruct (Hgen realidxregexp) as (Hiff & Htot & Hrows).
  repeat split; try apply Hiff; try exact Htot; try exact Hrows.
  - intros Hr. apply (Hgen default_realidxregexp) in Hr.
    destruct Hr as [Hn | [(g & Hg & Hbad) | Hs]]; [auto | | auto].
    destruct (default_group_is_int _ _ Hg) as [z Hz]. congruence.
  - intros [Hn | Hs]; apply (Hgen default_realidxregexp); auto.
Qed.

(** The amended C1 at a complete run directory: construction succeeds,
    with one STATUS row. *)
Lemma init_raises_iff_witness :
  __init__ full_world "/scratch/realization-12" default_realidxregexp []
  = (Ok (self full_heap), trace full_heap)
  /\ status_rows (self full_heap) = 1%nat.
Proof.
  split; [reflexivity|].
  exact (proj1 (proj2 (proj2
    (init_raises_iff full_world "/scratch/realization-12"
       default_realidxregexp []))) _ _ eq_refl).
Defined.

(* ===================================================================== *)
(** * The accessors                                                        *)
(* ===================================================================== *)

Ltac run_eff :=
  unfold get_smryvalues, get_eclsum, get_parameters, set__eclsum,
    os_path_exists, glob_glob, ert_ecl_EclSum, pd_read_table_dict,
    bind, ret, raise, lift, gets, modify, emit, record, Traced_heap, truth,
    EclSum_bool.

Section Frames.
Variable env : Env.

Lemma decode_count_snoc (tr : list event) (e : event) :
  decode_count (tr ++ [e]) =
    (decode_count tr + (if is_decode e then 1 else 0))%nat.
Proof.
  unfold decode_count. rewrite List.filter_app, length_app. simpl.
  destruct (is_decode e); reflexivity.
Qed.

(** With a handle in the cache, [get_eclsum] returns it and touches
    nothing. *)
Lemma get_eclsum_cached (h : heap) (eclsum : EclSum) :
  _eclsum (self h) = Some eclsum ->
  get_eclsum env h = (Ok (Some eclsum), h).
Proof. intros Hc. run_eff. rewrite Hc. reflexivity. Qed.

Lemma get_smryvalues_cached (h : heap) (eclsum : EclSum) (w : wildcards) :
  _eclsum (self h) = Some eclsum ->
  snd (get_smryvalues env w h) = h.
Proof.
  intros Hc. run_eff. rewrite Hc. simpl. rewrite Hc. simpl.
  repeat case_match; reflexivity.
Qed.

(** [get_parameters] assigns nothing and does not call the decoder. *)
Lemma get_parameters_frame (h : heap) (b : bool) :
  self (snd (get_parameters env b h)) = self h
  /\ decode_count (trace (snd (get_parameters env b h)))
     = decode_count (trace h).
Proof.
  run_eff.
  destruct (item0 _) as [fullpath|e]; simpl; [|auto].
  destruct (table_dict env fullpath) as [params|e]; simpl.
  - destruct b; simpl; rewrite decode_count_snoc; simpl; auto with arith.
  - rewrite decode_count_snoc; simpl; auto with arith.
Qed.

(** [get_eclsum] either leaves the object as it is, or found the cache
    empty and filled it with what the decoder returned. *)
Lemma get_eclsum_frame (h : heap) :
  let h' := snd (get_eclsum env h) in
  self h' = self h
  \/ (_eclsum (self h) = None
      /\ exists filename eclsum,
           decode env filename = Ok eclsum
           /\ fst (get_eclsum env h) = Ok (Some eclsum)
           /\ self h' = with__eclsum (self h) (Some eclsum)).
Proof.
  run_eff.
  destruct (_eclsum (self h)) as [c|] eqn:Hc; simpl; [auto|].
  destruct (Nat.eqb _ 1); simpl.
  - destruct (item0 _) as [filename|e]; simpl; [|auto].
    destruct (path_exists env filename); simpl; [|auto].
    destruct (decode env filename) as [eclsum|e] eqn:Hd; simpl; [|auto].
    right. eauto 6.
  - destruct (item0 _) as [filename|e]; simpl; [|auto].
    destruct (path_exists env filename); simpl; [|auto].
    destruct (decode env filename) as [eclsum|e] eqn:Hd; simpl; [|auto].
    right. eauto 6.
Qed.

(** After its call of [get_eclsum], [get_smryvalues] assigns nothing. *)
Lemma get_smryvalues_heap (h : heap) (w : wildcards) :
  snd (get_smryvalues env w h) =
    if truth (_eclsum (self h)) then h else snd (get_eclsum env h).
Proof.
  unfold get_smryvalues, bind, gets, ret, lift, raise. simpl.
  destruct (truth (_eclsum (self h))) eqn:Ht; simpl.
  - rewrite Ht. simpl. repeat case_match; reflexivity.
  - destruct (get_eclsum env h) as [[r|e] h1]; simpl; [|reflexivity].
    repeat case_match; reflexivity.
Qed.

Lemma get_smryvalues_frame (h : heap) (w : wildcards) :
  let h' := snd (get_smryvalues env w h) in
  self h' = self h
  \/ (_eclsum (self h) = None
      /\ exists filename eclsum,
           decode env filename = Ok eclsum
           /\ self h' = with__eclsum (self h) (Some eclsum)).
Proof.
  simpl. rewrite get_smryvalues_heap.
  destruct (truth (_eclsum (self h))); [auto|].
  destruct (get_eclsum_frame h) as [Hs | (Hc & f & e & Hd & _ & Hs)];
    [auto|].
  right. eauto.
Qed.

(** Decoder calls made by one call of [get_eclsum]: none when the cache
    holds a handle. *)
Lemma run_call_cached (c : call) (h : heap) (eclsum : EclSum) :
  _eclsum (self h) = Some eclsum ->
  _eclsum (self (run_call env c h)) = Some eclsum
  /\ decode_count (trace (run_call env c h)) = decode_count (trace h).
Proof.
  intros Hc. destruct c as [|w|b]; simpl.
  - rewrite (get_eclsum_cached h eclsum Hc). auto.
  - rewrite (get_smryvalues_cached h eclsum w Hc). auto.
  - destruct (get_parameters_frame h b) as [-> ->]. auto.
Qed.

End Frames.

Lemma run_calls_cached (cs : list (Env * call)) (h : heap) (eclsum : EclSum) :
  _eclsum (self h) = Some eclsum ->
  _eclsum (self (run_calls cs h)) = Some eclsum
  /\ decode_count (trace (run_calls cs h)) = decode_count (trace h).
Proof.
  revert h. induction cs as [|[env c] cs IH]; intros h Hc; simpl; [auto|].
  destruct (run_call_cached env c h eclsum Hc) as [Hc' Hn].
  destruct (IH _ Hc') as [Hc'' Hn']. split; congruence.
Qed.

(** What [get_eclsum] returns is in the cache afterwards. *)
Lemma get_eclsum_result_cached (env : Env) (h : heap) (eclsum : EclSum) :
  fst (get_eclsum env h) = Ok (Some eclsum) ->
  _eclsum (self (snd (get_eclsum env h))) = Some eclsum.
Proof.
  run_eff.
  destruct (_eclsum (self h)) as [c|] eqn:Hc; simpl; [congruence|].
  destruct (Nat.eqb _ 1); simpl.
  - destruct (item0 _) as [filename|e]; simpl; [|discriminate].
    destruct (path_exists env filename); simpl; [|discriminate].
    destruct (decode env filename); simpl; [congruence|discriminate].
  - destruct (item0 _) as [filename|e]; simpl; [|discriminate].
    destruct (path_exists env filename); simpl; [|discriminate].
    destruct (decode env filename); simpl; [congruence|discriminate].
Qed.

(** C3: once [get_eclsum] has returned a handle, whatever accessors are
    called afterwards, in whatever state the outside world is then,
    [get_eclsum] returns that same handle and [get_smryvalues] uses it,
    both without changing the object, and the decoder is not invoked
    again. *)
Theorem eclsum_decoded_at_most_once (env : Env) (h : heap) (eclsum : EclSum)
    (later : list (Env * call)) (env' : Env) (w : wildcards) :
  fst (get_eclsum env h) = Ok (Some eclsum) ->
  let h1 := snd (get_eclsum env h) in
  let h2 := run_calls later h1 in
  decode_count (trace h2) = decode_count (trace h1)
  /\ get_eclsum env' h2 = (Ok (Some eclsum), h2)
  /\ snd (get_smryvalues env' w h2) = h2
  /\ _eclsum (self h2) = Some eclsum.
Proof.
  intros Hr h1 h2.
  pose proof (get_eclsum_result_cached env h eclsum Hr) as Hc1.
  destruct (run_calls_cached later h1 eclsum Hc1) as [Hc2 Hn].
  repeat split.
  - exact Hn.
  - apply get_eclsum_cached. exact Hc2.
  - apply (get_smryvalues_cached env' h2 eclsum w Hc2).
  - exact Hc2.
Qed.

(** ** A summary file that is not there *)

(** [get_eclsum] on an empty cache, once the file name is settled. *)
Lemma get_eclsum_resolved (env : Env) (h : heap) (filename : string) :
  _eclsum (self h) = None ->
  resolves env (self h) filename ->
  exists tr,
    decode_count tr = decode_count (trace h)
    /\ get_eclsum env h =
         if path_exists env filename then
           match decode env filename with
           | Ok eclsum =>
               (Ok (Some eclsum),
                {| self := with__eclsum (self h) (Some eclsum);
                   trace := (tr ++ [FsExists filename])
                              ++ [EclSumLoad filename] |})
           | Raise e =>
               (Raise e,
                {| self := self h;
                   trace := (tr ++ [FsExists filename])
                              ++ [EclSumLoad filename] |})
           end
         else (Ok None, {| self := self h; trace := tr ++ [FsExists filename] |}).
Proof.
  intros Hc Hres. run_eff. rewrite Hc. simpl.
  destruct Hres as [row Hrow | first others Hlen Hglob].
  - rewrite Hrow. simpl. exists (trace h). split; [reflexivity|].
    destruct (path_exists env (FULLPATH row)); simpl; [|reflexivity].
    destruct (decode env (FULLPATH row)); reflexivity.
  - apply Nat.eqb_neq in Hlen. rewrite Hlen. simpl. rewrite Hglob. simpl.
    exists (trace h ++ [FsGlob (os_path_join (_origpath (self h))
                                  ["eclipse/model"; "*.UNSMRY"])])%list.
    split; [rewrite decode_count_snoc; simpl; lia|].
    destruct (path_exists env first); simpl; [|reflexivity].
    destruct (decode env first); reflexivity.
Qed.

(** C8: when the cache is empty and the file name [get_eclsum] settles on
    does not exist, [get_eclsum] returns [None] without raising, without
    calling the decoder and without changing the object; nothing is
    remembered of the failure: a later call behaves as it would on the
    untouched object, looks for the file again and, if the file is there
    then, decodes it and returns the handle. *)
Theorem get_eclsum_missing_file_not_cached (env : Env) (h : heap)
    (filename : string) :
  _eclsum (self h) = None ->
  resolves env (self h) filename ->
  path_exists env filename = false ->
  let h1 := snd (get_eclsum env h) in
  fst (get_eclsum env h) = Ok None
  /\ self h1 = self h
  /\ decode_count (trace h1) = decode_count (trace h)
  /\ (forall env' filename' eclsum,
        resolves env' (self h) filename' ->
        path_exists env' filename' = true ->
        decode env' filename' = Ok eclsum ->
        fst (get_eclsum env' h1) = Ok (Some eclsum)
        /\ decode_count (trace (snd (get_eclsum env' h1)))
           = S (decode_count (trace h1)))
  /\ (forall env' filename',
        resolves env' (self h) filename' ->
        path_exists env' filename' = false ->
        fst (get_eclsum env' h1) = Ok None
        /\ In (FsExists filename') (trace (snd (get_eclsum env' h1)))).
Proof.
  intros Hc Hres Hex h1.
  destruct (get_eclsum_resolved env h filename Hc Hres) as (tr & Htr & Hg).
  rewrite Hex in Hg.
  assert (Hself : self h1 = self h) by (unfold h1; rewrite Hg; reflexivity).
  assert (Hc1 : _eclsum (self h1) = None) by (rewrite Hself; exact Hc).
  split; [rewrite Hg; reflexivity|].
  split; [exact Hself|].
  split; [unfold h1; rewrite Hg; simpl; rewrite decode_count_snoc; simpl; lia|].
  split.
  - intros env' filename' eclsum Hres' Hex' Hd'. rewrite <- Hself in Hres'.
    destruct (get_eclsum_resolved env' h1 filename' Hc1 Hres')
      as (tr' & Htr' & Hg').
    rewrite Hg', Hex', Hd'. simpl. split; [reflexivity|].
    rewrite !decode_count_snoc. simpl. lia.
  - intros env' filename' Hres' Hex'. rewrite <- Hself in Hres'.
    destruct (get_eclsum_resolved env' h1 filename' Hc1 Hres')
      as (tr' & _ & Hg').
    rewrite Hg', Hex'. simpl. split; [reflexivity|].
    apply in_or_app. right. left. reflexivity.
Qed.

(** In that situation [get_smryvalues] returns the empty table. *)
Lemma get_smryvalues_missing_file (env : Env) (h : heap) (filename : string)
    (w : wildcards) :
  _eclsum (self h) = None ->
  resolves env (self h) filename ->
  path_exists env filename = false ->
  fst (get_smryvalues env w h) = Ok pd.empty.
Proof.
  intros Hc Hres Hex.
  destruct (get_eclsum_resolved env h filename Hc Hres) as (tr & _ & Hg).
  rewrite Hex in Hg.
  unfold get_smryvalues, bind, gets, ret. simpl.
  rewrite Hc. simpl. rewrite Hg. simpl. rewrite Hc. reflexivity.
Qed.

(** C8 at a run directory whose registered summary file has been removed;
    the file is back at the second call. *)
Lemma get_eclsum_missing_file_not_cached_witness :
  let row := {| FULLPATH := "/scratch/realization-12/eclipse/model/R.UNSMRY";
                FILETYPE := "UNSMRY";
                LOCALPATH := "eclipse/model/R.UNSMRY"; BASENAME := None |} in
  let h := {| self := {| _origpath := "/scratch/realization-12";
                         files := [status_row "/scratch/realization-12"; row];
                         _eclsum := None; index := 12 |};
              trace := [] |} in
  let gone := world_of ["/scratch/realization-12/STATUS"]
                (Raise IOError) (Raise IOError) in
  let h1 := snd (get_eclsum gone h) in
  (_eclsum (self h) = None
   /\ resolves gone (self h) (FULLPATH row)
   /\ path_exists gone (FULLPATH row) = false)
  /\ fst (get_eclsum gone h) = Ok None
  /\ self h1 = self h
  /\ fst (get_eclsum full_world h1) = Ok (Some three_vectors).
Proof.
  intros row h gone h1.
  assert (Hres : forall env, resolves env (self h) (FULLPATH row))
    by (intros env; apply resolves_registered; reflexivity).
  destruct (get_eclsum_missing_file_not_cached gone h (FULLPATH row)
              eq_refl (Hres gone) eq_refl) as (Hr & Hs & _ & Hretry & _).
  split; [split; [reflexivity | split; [apply Hres | reflexivity]]|].
  split; [exact Hr|]. split; [exact Hs|].
  exact (proj1 (Hretry full_world (FULLPATH row) three_vectors
                  (Hres full_world) eq_refl eq_refl)).
Defined.

(** C3 at a complete run directory: the summary is decoded by the first
    call; parameters are read, the files disappear, values are asked for,
    and the decoder has still been invoked once. *)
Lemma eclsum_decoded_at_most_once_witness :
  let later := [(full_world, Call_get_parameters true);
                (bare_world, Call_get_smryvalues (WStr "FO*"));
                (bare_world, Call_get_eclsum)] in
  let h1 := snd (get_eclsum full_world full_heap) in
  let h2 := run_calls later h1 in
  fst (get_eclsum full_world full_heap) = Ok (Some three_vectors)
  /\ decode_count (trace h2) = 1%nat
  /\ get_eclsum bare_world h2 = (Ok (Some three_vectors), h2).
Proof.
  intros later h1 h2.
  destruct (eclsum_decoded_at_most_once full_world full_heap three_vectors
              later bare_world WNone eq_refl) as (Hn & Hg & _ & _).
  split; [reflexivity|]. split; [|exact Hg].
  fold h1 h2 in Hn. rewrite Hn. reflexivity.
Defined.

(** ** No summary file at all *)

(** With an empty cache, no usable registry entry and no file matching the
    glob, [glob.glob(...)[0]] raises. *)
Lemma get_eclsum_no_candidate (env : Env) (h : heap) :
  _eclsum (self h) = None ->
  length (List.filter (fun x => String.eqb (FILETYPE x) "UNSMRY")
            (files (self h))) <> 1%nat ->
  glob_result env
    (os_path_join (_origpath (self h)) ["eclipse/model"; "*.UNSMRY"]) = [] ->
  fst (get_eclsum env h) = Raise IndexError
  /\ forall w, fst (get_smryvalues env w h) = Raise IndexError.
Proof.
  intros Hc Hlen Hglob. apply Nat.eqb_neq in Hlen.
  assert (Hg : fst (get_eclsum env h) = Raise IndexError).
  { run_eff. rewrite Hc. simpl. rewrite Hlen. simpl. rewrite Hglob.
    reflexivity. }
  split; [exact Hg|]. intros w.
  unfold get_smryvalues, bind, gets. simpl. rewrite Hc. simpl.
  destruct (get_eclsum env h) as [[r|e] h1]; simpl in *; congruence.
Qed.

(** C2: on a freshly constructed realization whose directory holds only
    the STATUS file, so that no summary file is registered and none is on
    disk, [get_smryvalues] does not return an empty table: it raises
    [IndexError], raised by [glob.glob(...)[0]] in [get_eclsum]. *)
Theorem get_smryvalues_raises_without_summary :
  constructed bare_world "/scratch/realization-0" = Some bare_heap
  /\ List.filter (fun x => String.eqb (FILETYPE x) "UNSMRY")
       (files (self bare_heap)) = []
  /\ glob_result bare_world
       (os_path_join "/scratch/realization-0" ["eclipse/model"; "*.UNSMRY"])
     = []
  /\ fst (get_eclsum bare_world bare_heap) = Raise IndexError
  /\ fst (get_smryvalues bare_world WNone bare_heap) = Raise IndexError
  /\ fst (get_smryvalues bare_world (WStr "FOPT") bare_heap) = Raise IndexError.
Proof. repeat split. Qed.

(** ** No parameters file *)

Lemma get_parameters_unregistered (env : Env) (h : heap) (b : bool) :
  List.filter (fun r => String.eqb (LOCALPATH r) "parameters.txt")
    (files (self h)) = [] ->
  get_parameters env b h = (Raise IndexError, h).
Proof. intros Hf. run_eff. rewrite Hf. reflexivity. Qed.

(** C7: on a realization whose registry has no parameters.txt row,
    [get_parameters] raises [IndexError], the error of indexing the empty
    selection with [values[0]]; the file system is not consulted. *)
Theorem get_parameters_raises_IndexError :
  constructed bare_world "/scratch/realization-0" = Some bare_heap
  /\ List.filter (fun r => String.eqb (LOCALPATH r) "parameters.txt")
       (files (self bare_heap)) = []
  /\ get_parameters bare_world true bare_heap = (Raise IndexError, bare_heap)
  /\ get_parameters bare_world false bare_heap = (Raise IndexError, bare_heap)
  /\ parameters bare_world bare_heap = (Raise IndexError, bare_heap).
Proof. repeat split. Qed.

(** ** What the accessors change *)

(** C10, as stated, fails: [get_smryvalues] does not leave the object
    unchanged. Called on a fresh object whose summary file is on disk, it
    fills the cache through [get_eclsum]. *)
Lemma get_smryvalues_fills_cache :
  ~ ((forall b, self (snd (get_parameters full_world b full_heap))
                = self full_heap)
     /\ (forall w, self (snd (get_smryvalues full_world w full_heap))
                   = self full_heap)).
Proof.
  intros [_ Hs]. specialize (Hs WNone).
  apply (f_equal _eclsum) in Hs. vm_compute in Hs. discriminate.
Qed.

(** C10, amended: no accessor changes the file registry, the original
    path or the index. [get_parameters] leaves the whole object unchanged.
    [get_eclsum] and [get_smryvalues] change at most the summary cache,
    and only from empty to the handle returned by a successful decode. *)
Theorem accessors_frame (env : Env) (h : heap) (b : bool) (w : wildcards) :
  let changed_only_cache (h' : heap) :=
    files (self h') = files (self h)
    /\ _origpath (self h') = _origpath (self h)
    /\ index (self h') = index (self h)
    /\ (_eclsum (self h') = _eclsum (self h)
        \/ (_eclsum (self h) = None
            /\ exists filename eclsum,
                 decode env filename = Ok eclsum
                 /\ _eclsum (self h') = Some eclsum)) in
  self (snd (get_parameters env b h)) = self h
  /\ changed_only_cache (snd (get_eclsum env h))
  /\ changed_only_cache (snd (get_smryvalues env w h)).
Proof.
  intros changed_only_cache.
  split; [apply get_parameters_frame|].
  split; unfold changed_only_cache.
  - destruct (get_eclsum_frame env h) as [-> | (Hc & f & e & Hd & _ & ->)];
      simpl; eauto 10.
  - destruct (get_smryvalues_frame env h w) as [-> | (Hc & f & e & Hd & ->)];
      simpl; eauto 10.
Qed.

(** ** The table of summary values *)

Section Columns.
Implicit Types (props : gset string) (data : gmap string (list spec_float)).

(** A name is resolved when some pattern of the list lists it. *)
Lemma elem_of_resolve_props (eclsum : EclSum)
    (patterns : list (option string)) (name : string) :
  name ∈ resolve_props eclsum patterns
  <-> exists p, p ∈ patterns /\ name ∈ keys eclsum p.
Proof.
  unfold resolve_props.
  assert (Hgen : forall ps (acc : gset string),
    name ∈ fold_left
             (fun props prop => props ∪ list_to_set (keys eclsum prop)) ps acc
    <-> name ∈ acc \/ exists p, p ∈ ps /\ name ∈ keys eclsum p).
  { induction ps as [|p ps IH]; intros acc; simpl.
    - split; [auto|]. intros [Ha | (p & Hp & _)]; [exact Ha|].
      inversion Hp.
    - rewrite IH, elem_of_union, elem_of_list_to_set. split.
      + intros [[Ha | Hk] | (q & Hq & Hk)]; [auto | |].
        * right. exists p. split; [left | exact Hk].
        * right. exists q. split; [right; exact Hq | exact Hk].
      + intros [Ha | (q & Hq & Hk)]; [auto|].
        apply elem_of_cons in Hq as [-> | Hq]; [auto|].
        right. eauto. }
  rewrite Hgen. split; [|auto].
  intros [Ha | He]; [|exact He]. exfalso. set_solver.
Qed.

(** The dictionary comprehension succeeds when every value does, and
    then binds exactly the given names to their values. *)
Lemma dict_fold_ok (f : string -> result (list spec_float))
    (l : list string) (d0 : gmap string (list spec_float)) :
  (forall k, k ∈ l -> exists v, f k = Ok v) ->
  exists d,
    fold_left
      (fun acc prop =>
         rbind acc (fun data =>
         rbind (f prop) (fun v => Ok (<[prop := v]> data))))
      l (Ok d0) = Ok d
    /\ (forall k, k ∈ l -> exists v, f k = Ok v /\ d !! k = Some v)
    /\ (forall k, k ∉ l -> d !! k = d0 !! k).
Proof.
  revert d0. induction l as [|a l IH]; intros d0 Hf; simpl.
  - exists d0. split; [reflexivity|]. split; [|reflexivity].
    intros k Hk. inversion Hk.
  - destruct (Hf a) as [va Hva]; [left|]. rewrite Hva. simpl.
    destruct (IH (<[a := va]> d0)) as (d & Hd & Hin & Hout).
    { intros k Hk. apply Hf. right. exact Hk. }
    exists d. split; [exact Hd|]. split.
    + intros k Hk. destruct (decide (k ∈ l)) as [Hl | Hl]; [auto|].
      apply elem_of_cons in Hk as [-> | Hk]; [|contradiction].
      exists va. split; [exact Hva|].
      rewrite (Hout a Hl). apply lookup_insert_eq.
    + intros k Hk. apply not_elem_of_cons in Hk as [Hne Hl].
      rewrite (Hout k Hl). apply lookup_insert_ne. congruence.
Qed.

Lemma dict_of_props_ok (f : string -> result (list spec_float)) props :
  (forall k, k ∈ props -> exists v, f k = Ok v) ->
  exists data,
    dict_of_props props f = Ok data
    /\ dom data = props
    /\ (forall k v, data !! k = Some v -> k ∈ props /\ f k = Ok v).
Proof.
  intros Hf. unfold dict_of_props.
  destruct (dict_fold_ok f (elements props) ∅) as (d & Hd & Hin & Hout).
  { intros k Hk. apply Hf. apply elem_of_elements. exact Hk. }
  exists d. split; [exact Hd|].
  assert (Hdom : forall k, k ∈ dom d <-> k ∈ props).
  { intros k. rewrite elem_of_dom. split.
    - intros [v Hv]. destruct (decide (k ∈ elements props)) as [Hk | Hk].
      + apply elem_of_elements. exact Hk.
      + rewrite (Hout k Hk), lookup_empty in Hv. discriminate.
    - intros Hk. apply elem_of_elements in Hk.
      destruct (Hin k Hk) as (v & _ & Hv). eauto. }
  split; [apply set_eq; exact Hdom|].
  intros k v Hkv.
  assert (Hk : k ∈ props) by (apply Hdom, elem_of_dom; eauto).
  split; [exact Hk|]. apply elem_of_elements in Hk.
  destruct (Hin k Hk) as (v' & Hfv & Hv'). congruence.
Qed.

End Columns.

(** [get_smryvalues] on an object whose summary can be had is
    [get_smryvalues] on the object with the summary in its cache. *)
Lemma get_smryvalues_on_load (env : Env) (h : heap) (eclsum : EclSum)
    (w : wildcards) :
  fst (get_eclsum env h) = Ok (Some eclsum) ->
  get_smryvalues env w h = get_smryvalues env w (snd (get_eclsum env h)).
Proof.
  intros Hr. pose proof (get_eclsum_result_cached env h eclsum Hr) as Hc1.
  destruct (_eclsum (self h)) as [c|] eqn:Hc.
  - rewrite (get_eclsum_cached env h c Hc). reflexivity.
  - destruct (get_eclsum env h) as [[r|e] h1] eqn:Hg; simpl in Hr, Hc1;
      [|discriminate].
    unfold get_smryvalues, bind, gets, ret. simpl.
    rewrite Hc, Hc1. simpl. rewrite Hg, Hc1. reflexivity.
Qed.

(** The table [get_smryvalues] builds, in terms of the patterns it
    iterates over. *)
Lemma get_smryvalues_columns (env : Env) (h : heap) (eclsum : EclSum)
    (w : wildcards) :
  let vector := if has_numpy_vector eclsum then numpy_vector eclsum
                else get_values eclsum in
  fst (get_eclsum env h) = Ok (Some eclsum) ->
  (forall p name,
      p ∈ wildcard_list w -> name ∈ keys eclsum p ->
      exists v, vector name = Ok v /\ length v = length (get_dates eclsum)) ->
  exists df,
    get_smryvalues env w h = (Ok df, snd (get_eclsum env h))
    /\ (forall name, name ∈ dom (pd.columns df)
                     <-> exists p, p ∈ wildcard_list w /\ name ∈ keys eclsum p)
    /\ (forall name v, pd.columns df !! name = Some v -> vector name = Ok v)
    /\ pd.index df = get_dates eclsum.
Proof.
  intros vector Hr Hvec.
  rewrite (get_smryvalues_on_load env h eclsum w Hr).
  pose proof (get_eclsum_result_cached env h eclsum Hr) as Hc.
  generalize dependent (snd (get_eclsum env h)). clear h Hr.
  intros h Hc.
  set (props := resolve_props eclsum (wildcard_list w)).
  destruct (dict_of_props_ok vector props) as (data & Hdata & Hdom & Hval).
  { intros k Hk. apply elem_of_resolve_props in Hk as (p & Hp & Hk).
    destruct (Hvec p k Hp Hk) as (v & Hv & _). eauto. }
  assert (Hlen : map_Forall
            (fun _ v => length v = length (get_dates eclsum)) data).
  { intros k v Hkv. destruct (Hval k v Hkv) as [Hk Hv].
    apply elem_of_resolve_props in Hk as (p & Hp & Hk).
    destruct (Hvec p k Hp Hk) as (v' & Hv' & Hl). congruence. }
  exists {| pd.columns := data; pd.index := get_dates eclsum |}.
  split.
  - unfold get_smryvalues, bind, gets, ret, lift, truth, EclSum_bool.
    simpl. rewrite Hc. simpl. rewrite Hc. simpl. fold props.
    replace (if has_numpy_vector eclsum
             then dict_of_props props (numpy_vector eclsum)
             else dict_of_props props (get_values eclsum))
      with (dict_of_props props vector)
      by (unfold vector; destruct (has_numpy_vector eclsum); reflexivity).
    rewrite Hdata. unfold pd.DataFrame_of.
    rewrite bool_decide_eq_true_2 by exact Hlen. reflexivity.
  - simpl. split.
    { intros name. rewrite Hdom. apply elem_of_resolve_props. }
    split; [intros name v Hkv; apply (Hval name v Hkv)|]. reflexivity.
Qed.

(** C6: on an object whose summary handle is loaded (in the cache already,
    or by this call), [get_smryvalues] returns a table whose columns are
    exactly the vector names that the handle lists for at least one of
    the patterns supplied, each name once, whose columns hold the values
    of their vectors, and whose index is the list of report dates,
    provided the vectors so listed can be read and are as long as that
    list. For a supplied list the patterns are the members of the list,
    for a supplied text the pattern is that text, and with no pattern
    (none, the empty text or the empty list) the columns are all the names
    the handle lists. With the pattern [FO*] and a decoder holding FOPT,
    FOPR and WOPR the columns are FOPT and FOPR; with the list of [W*] and
    [*PR] they are FOPR and WOPR. *)
Theorem get_smryvalues_table (env : Env) (h : heap) (eclsum : EclSum) :
  let vector := if has_numpy_vector eclsum then numpy_vector eclsum
                else get_values eclsum in
  let readable (p : option string) :=
    forall name, name ∈ keys eclsum p ->
      exists v, vector name = Ok v /\ length v = length (get_dates eclsum) in
  let table (w : wildcards) (resolved : string -> Prop) :=
    exists df,
      get_smryvalues env w h = (Ok df, snd (get_eclsum env h))
      /\ (forall name, name ∈ dom (pd.columns df) <-> resolved name)
      /\ (forall name v, pd.columns df !! name = Some v -> vector name = Ok v)
      /\ pd.index df = get_dates eclsum in
  fst (get_eclsum env h) = Ok (Some eclsum) ->
  (forall p ps,
     (forall q, q ∈ p :: ps -> readable q) ->
     table (WList (p :: ps))
       (fun name => exists q, q ∈ p :: ps /\ name ∈ keys eclsum q))
  /\ (forall s, s <> "" -> readable (Some s) ->
        table (WStr s) (fun name => name ∈ keys eclsum (Some s)))
  /\ (readable None ->
        table WNone (fun name => name ∈ keys eclsum None)
        /\ table (WStr "") (fun name => name ∈ keys eclsum None)
        /\ table (WList []) (fun name => name ∈ keys eclsum None))
  /\ (exists df,
        fst (get_smryvalues full_world (WStr "FO*") full_heap) = Ok df
        /\ _eclsum (self (snd (get_smryvalues full_world (WStr "FO*") full_heap)))
           = Some three_vectors
        /\ keys three_vectors None = ["FOPT"; "FOPR"; "WOPR"]
        /\ dom (pd.columns df) = {[ "FOPT"; "FOPR" ]})
  /\ (exists df,
        fst (get_smryvalues full_world (WList [Some "W*"; Some "*PR"])
               full_heap) = Ok df
        /\ dom (pd.columns df) = {[ "FOPR"; "WOPR" ]}).
Proof.
  intros vector readable table Hr.
  assert (Hone : forall w p,
            wildcard_list w = [p] -> readable p ->
            table w (fun name => name ∈ keys eclsum p)).
  { intros w p Hw Hp.
    destruct (get_smryvalues_columns env h eclsum w Hr)
      as (df & Hg & Hcols & Hvals & Hidx).
    - rewrite Hw. intros q name Hq. apply list_elem_of_singleton in Hq as ->.
      apply Hp.
    - exists df. split; [exact Hg|]. split; [|auto].
      intros name. rewrite Hcols, Hw. split.
      + intros (q & Hq & Hn). apply list_elem_of_singleton in Hq as ->.
        exact Hn.
      + intros Hn. exists p. split; [apply list_elem_of_singleton|];
          auto. }
  split; [|split; [|split; [|split]]].
  - intros p ps Hps.
    destruct (get_smryvalues_columns env h eclsum (WList (p :: ps)) Hr)
      as (df & Hg & Hcols & Hvals & Hidx).
    + intros q name Hq. exact (Hps q Hq name).
    + exists df. split; [exact Hg|]. split; [exact Hcols|]. auto.
  - intros s Hs Hp. apply Hone; [|exact Hp].
    unfold wildcard_list. simpl.
    destruct (String.eqb_spec s ""); [contradiction | reflexivity].
  - intros Hp. repeat split; apply Hone; auto.
  - eexists. split; [vm_compute; reflexivity|].
    split; [reflexivity|]. split; [reflexivity|]. vm_compute. reflexivity.
  - eexists. split; [vm_compute; reflexivity|]. vm_compute. reflexivity.
Qed.

(** The test double answers for every name it lists. *)
Lemma summary_of_aligned (vectors : list (string * list spec_float))
    (dates : list Z) (p : option string) (name : string) :
  Forall (fun kv => length (snd kv) = length dates) vectors ->
  name ∈ keys (summary_of vectors dates) p ->
  exists v, numpy_vector (summary_of vectors dates) name = Ok v
            /\ length v = length dates.
Proof.
  intros Hlen Hname.
  assert (Hin : In name (map fst vectors)).
  { apply list_elem_of_In in Hname. simpl in Hname.
    destruct p as [pat|]; [|exact Hname].
    apply List.filter_In in Hname. tauto. }
  simpl.
  destruct (List.find (fun kv => String.eqb (fst kv) name) vectors)
    as [kv|] eqn:Hfind.
  - apply List.find_some in Hfind as [Hkv _].
    exists (snd kv). split; [reflexivity|].
    rewrite List.Forall_forall in Hlen. apply Hlen. exact Hkv.
  - apply List.in_map_iff in Hin as (kv & Hk & Hkv).
    apply (List.find_none _ _ Hfind) in Hkv. simpl in Hkv.
    rewrite Hk, String.eqb_refl in Hkv. discriminate.
Qed.

(** C6 at a loaded summary with two overlapping patterns: WOPR, listed
    for both, is one column, and FOPT, listed for neither, is none. *)
Lemma get_smryvalues_table_witness :
  fst (get_eclsum bare_world loaded_heap) = Ok (Some three_vectors)
  /\ exists df,
       get_smryvalues bare_world (WList [Some "W*"; Some "*PR"]) loaded_heap
       = (Ok df, loaded_heap)
       /\ pd.index df = [17532; 17563]
       /\ "FOPR" ∈ dom (pd.columns df)
       /\ "WOPR" ∈ dom (pd.columns df)
       /\ ("FOPT" ∉ dom (pd.columns df))
       /\ dom (pd.columns df) = {[ "FOPR"; "WOPR" ]}.
Proof.
  split; [reflexivity|].
  destruct (proj1 (get_smryvalues_table bare_world loaded_heap three_vectors
                     eq_refl) (Some "W*") [Some "*PR"])
    as (df & Hg & Hcols & _ & Hidx).
  - intros q _ name Hname.
    apply (summary_of_aligned _ _ q name); [|exact Hname].
    repeat constructor.
  - assert (Hw : keys three_vectors (Some "W*") = ["WOPR"]) by reflexivity.
    assert (Hpr : keys three_vectors (Some "*PR") = ["FOPR"; "WOPR"])
      by reflexivity.
    assert (Hdom : forall name,
              name ∈ dom (pd.columns df)
              <-> name = "FOPR" \/ name = "WOPR").
    { intros name. rewrite Hcols. split.
      - intros (q & Hq & Hn).
        apply elem_of_cons in Hq as [-> | Hq].
        + rewrite Hw in Hn. apply list_elem_of_singleton in Hn. auto.
        + apply list_elem_of_singleton in Hq as ->. rewrite Hpr in Hn.
          apply elem_of_cons in Hn as [-> | Hn]; [auto|].
          apply list_elem_of_singleton in Hn. auto.
      - intros [-> | ->]; exists (Some "*PR");
          (split; [right; left | rewrite Hpr]).
        + left.
        + right. left. }
    exists df. split; [exact Hg|]. split; [exact Hidx|].
    split; [apply Hdom; auto|]. split; [apply Hdom; auto|].
    split; [rewrite Hdom; intros [H | H]; discriminate H|].
    apply set_eq. intros name. rewrite Hdom, elem_of_union, !elem_of_singleton.
    reflexivity.
Defined.

(* ===================================================================== *)
(** * VirtualRealization                                                   *)
(* ===================================================================== *)

(** C9, as stated, fails: a virtual realization constructed with only a
    description holds no parameter mapping, empty or not, under any
    attribute name. *)
Lemma virtual_realization_has_no_mapping :
  ~ exists obj name,
      fst (VirtualRealization.__init__ PyNone (PyStr "archived") []) = Ok obj
      /\ obj !! name = Some (PyDict []).
Proof.
  intros (obj & name & [= <-] & Hn).
  destruct (decide (name = "_description")) as [-> | Hne].
  - vm_compute in Hn. discriminate.
  - rewrite lookup_insert_ne, lookup_insert_ne, lookup_empty in Hn
      by congruence.
    discriminate.
Qed.

(** C9, amended: constructing a virtual realization always succeeds,
    makes no call to the outside world, and yields an object whose only
    attribute is [_description]: the description given, or the empty text
    when none (or an empty one) is given. No attribute holds an empty
    mapping, and no parameter mapping is set up. *)
Theorem virtual_realization_init (path description : value)
    (tr : list event) :
  VirtualRealization.__init__ path description tr
  = (Ok {[ "_description" :=
             if truthy description then description else PyStr "" ]}, tr)
  /\ VirtualRealization.__init__ path PyNone tr
     = (Ok {[ "_description" := PyStr "" ]}, tr)
  /\ List.filter is_fs_read (snd (VirtualRealization.__init__ path description tr))
     = List.filter is_fs_read tr
  /\ (forall obj name,
        fst (VirtualRealization.__init__ path description tr) = Ok obj ->
        obj !! name <> Some (PyDict [])).
Proof.
  assert (Hinit : VirtualRealization.__init__ path description tr
            = (Ok {[ "_description" :=
                       if truthy description then description else PyStr "" ]},
               tr)).
  { unfold VirtualRealization.__init__, ret.
    destruct (truthy description).
    - rewrite insert_insert_eq, insert_empty. reflexivity.
    - rewrite insert_empty. reflexivity. }
  split; [exact Hinit|].
  split; [unfold VirtualRealization.__init__, ret; simpl;
          rewrite insert_empty; reflexivity|].
  split; [rewrite Hinit; reflexivity|].
  rewrite Hinit. simpl. intros obj name [= <-] Hn.
  destruct (decide (name = "_description")) as [-> | Hne].
  - rewrite lookup_singleton_eq in Hn. injection Hn as Hd.
    destruct (truthy description) eqn:Ht; [|discriminate].
    rewrite Hd in Ht. discriminate.
  - rewrite lookup_singleton_ne in Hn by congruence. discriminate.
Qed.

(** The amended C9 with a description and no path. *)
Lemma virtual_realization_init_witness :
  fst (VirtualRealization.__init__ PyNone (PyStr "archived") [])
    = Ok {[ "_description" := PyStr "archived" ]}
  /\ ({[ "_description" := PyStr "archived" ]} : gmap string value)
       !! "parameters" <> Some (PyDict []).
Proof.
  destruct (virtual_realization_init PyNone (PyStr "archived") [])
    as (Hinit & _ & _ & Hattr).
  split; [rewrite Hinit; reflexivity|].
  apply Hattr. rewrite Hinit. reflexivity.
Defined.

(* ===================================================================== *)
(** * More on parse_number                                                 *)
(* ===================================================================== *)

Section FloatBranch.

Lemma Qred_integer (z : Z) : Qred (z # 1) = (z # 1)%Q.
Proof.
  unfold Qred.
  pose proof (Z.ggcd_gcd z 1) as Hg.
  pose proof (Z.ggcd_correct_divisors z 1) as Hd.
  destruct (Z.ggcd z 1) as [g [a b]]. simpl in *.
  rewrite Z.gcd_1_r in Hg. subst g. destruct Hd as [Ha Hb].
  replace a with z by lia. replace b with 1 by lia. reflexivity.
Qed.

(** A fraction over a power of two reduces to an integer exactly when the
    power divides the numerator. *)
Lemma Qred_dyadic_integer (n k z : Z) :
  0 <= k ->
  Qred (n # Z.to_pos (2 ^ k)) = (z # 1)%Q <-> n = z * 2 ^ k.
Proof.
  intros Hk. assert (Hp : 0 < 2 ^ k) by (apply Z.pow_pos_nonneg; lia).
  rewrite <- Qred_integer, Qred_eq_iff. unfold Qeq. simpl.
  rewrite Z2Pos.id by exact Hp. lia.
Qed.

Lemma int_of_float_value (s : bool) (m : positive) (e : Z) :
  int_of_float (S754_finite s m e) =
    Ok (if 0 <=? e then (if s then Zneg m else Zpos m) * 2 ^ e
        else if s then - (Zpos m / 2 ^ (- e)) else Zpos m / 2 ^ (- e)).
Proof.
  simpl. destruct (Z.leb_spec 0 e) as [He | He].
  - rewrite Z.shiftl_mul_pow2 by exact He. destruct s; f_equal; lia.
  - rewrite Z.shiftr_div_pow2 by lia. reflexivity.
Qed.

End FloatBranch.

(** X1: on a finite [float], [parse_number] returns the integer of the
    same value when the value is whole, and the [float] itself when it has
    a fractional part; either way the value is the one given. *)
Theorem parse_number_float_value (f : spec_float) (q : Q) :
  float_to_Q f = Some q ->
  (exists r, parse_number (PyFloat f) = Ok r /\ numeric_value r = Some q)
  /\ ((exists z, q = (z # 1)%Q /\ parse_number (PyFloat f) = Ok (PyInt z))
      \/ ((forall z, q <> (z # 1)%Q)
          /\ parse_number (PyFloat f) = Ok (PyFloat f))).
Proof.
  intros Hq.
  assert (Hcase :
    (exists z, q = (z # 1)%Q /\ parse_number (PyFloat f) = Ok (PyInt z))
    \/ ((forall z, q <> (z # 1)%Q)
        /\ parse_number (PyFloat f) = Ok (PyFloat f))).
  { destruct f as [s|s| |s m e]; try discriminate.
    - left. exists 0. injection Hq as <-. destruct s; split; reflexivity.
    - unfold parse_number, rbind, int. rewrite int_of_float_value.
      simpl in Hq. injection Hq as <-. unfold int_eq_float.
      set (sm := if s then Z.neg m else Z.pos m).
      destruct (Z.leb_spec 0 e) as [He | He].
      + rewrite Z.shiftl_mul_pow2, Z.eqb_refl by exact He.
        left. exists (sm * 2 ^ e). split; [apply Qred_integer | reflexivity].
      + assert (Hp : 0 < 2 ^ (- e)) by (apply Z.pow_pos_nonneg; lia).
        set (z := if s then - (Z.pos m / 2 ^ (- e)) else Z.pos m / 2 ^ (- e)).
        rewrite Z.shiftl_mul_pow2 by lia.
        destruct (Z.eqb_spec (z * 2 ^ (- e)) sm) as [Hz | Hz].
        * left. exists z. split; [|reflexivity].
          apply Qred_dyadic_integer; lia.
        * right. split; [|reflexivity].
          intros z' Hz'. apply Qred_dyadic_integer in Hz'; [|lia].
          apply Hz. unfold z, sm in *. destruct s.
          -- assert (Hm : Z.pos m = (- z') * 2 ^ (- e)) by lia.
             rewrite Hm at 1. rewrite Z.div_mul by lia. lia.
          -- rewrite Hz' at 1. rewrite Z.div_mul by lia. lia. }
  split; [|exact Hcase].
  destruct Hcase as [(z & -> & Hr) | (_ & Hr)]; rewrite Hr; eauto.
Qed.

(** X1 at the binary64 value 2.5. *)
Lemma parse_number_float_value_witness :
  float_to_Q (dyadic 5 (-1)) = Some (5 # 2)%Q
  /\ exists r, parse_number (PyFloat (dyadic 5 (-1))) = Ok r
               /\ numeric_value r = Some (5 # 2)%Q.
Proof.
  split; [reflexivity|].
  exact (proj1 (parse_number_float_value (dyadic 5 (-1)) (5 # 2)%Q eq_refl)).
Defined.

(** X2: [parse_number] raises in exactly three cases: [ValueError] on the
    [float] [nan], [OverflowError] on an infinite [float], and [TypeError]
    on a value that is neither a number nor a text; on every other value
    it returns. *)
Theorem parse_number_raises_iff (v : value) (e : exn) :
  parse_number v = Raise e
  <-> (v = PyFloat S754_nan /\ e = ValueError)
      \/ ((exists s, v = PyFloat (S754_infinity s)) /\ e = OverflowError)
      \/ ((v = PyNone \/ exists d, v = PyDict d) /\ e = TypeError).
Proof.
  split.
  - destruct v as [z|f|s| |d].
    + discriminate.
    + destruct f as [s|s| |s m e'].
      * destruct s; discriminate.
      * intros [= <-]. right. left. eauto.
      * intros [= <-]. left. auto.
      * intros Hr. exfalso.
        destruct (parse_number_returns (PyFloat (S754_finite s m e')))
          as [r Hok]; [simpl; eauto|]. congruence.
    + intros Hr. exfalso.
      destruct (parse_number_returns (PyStr s) I) as [r Hok]. congruence.
    + intros [= <-]. right. right. auto.
    + intros [= <-]. right. right. eauto.
  - intros [[-> ->] | [[[s ->] ->] | [[-> | [d ->]] ->]]]; reflexivity.
Qed.

Section Decimal.

Lemma string_of_uint_digits (d : Decimal.uint) :
  all_in is_digit (NilEmpty.string_of_uint d).
Proof.
  induction d; intros c; simpl; try tauto;
    (intros [<- | Hc]; [reflexivity | exact (IHd c Hc)]).
Qed.

Lemma digits_tail_number (s : string) :
  all_in is_digit s ->
  digits_tail s = (map digit_value (list_ascii_of_string s), "").
Proof.
  induction s as [|c s IH]; intros Hs; simpl; [reflexivity|].
  rewrite (Hs c) by (left; reflexivity).
  rewrite IH by (intros x Hx; apply Hs; right; exact Hx). reflexivity.
Qed.

(** [int] reads a non-empty run of digits as the number it writes. *)
Lemma int_of_str_number (g : string) :
  g <> "" -> all_in is_digit g -> int_of_str g = Ok (number_of g).
Proof.
  intros Hne Hg. destruct g as [|c g]; [congruence|].
  assert (Hc : is_digit c = true) by (apply Hg; left; reflexivity).
  unfold int_of_str, strip.
  assert (Hl : lstrip (String c g) = String c g).
  { simpl. rewrite (digit_not_space c Hc). reflexivity. }
  rewrite Hl, (rstrip_digits _ Hg).
  assert (Hs : split_sign (String c g) = (false, String c g)).
  { destruct (digit_not_sign c Hc) as [Hm Hp]. unfold split_sign.
    destruct c as [[] [] [] [] [] [] [] []]; try reflexivity; congruence. }
  rewrite Hs. unfold digitpart. rewrite Hc.
  rewrite digits_tail_number by (intros x Hx; apply Hg; right; exact Hx).
  reflexivity.
Qed.

Lemma int_of_str_minus (g : string) :
  g <> "" -> all_in is_digit g ->
  int_of_str (String "-" g) = Ok (- number_of g).
Proof.
  intros Hne Hg. destruct g as [|c g]; [congruence|].
  assert (Hc : is_digit c = true) by (apply Hg; left; reflexivity).
  unfold int_of_str, strip.
  change (lstrip (String "-" (String c g))) with (String "-" (String c g)).
  assert (Hr : forall s, rstrip s = s -> s <> "" ->
                         rstrip (String "-" s) = String "-" s).
  { intros s Hs Hn. simpl. rewrite Hs. destruct s; congruence. }
  specialize (Hr _ (rstrip_digits _ Hg) Hne).
  rewrite Hr. simpl split_sign. cbv iota. unfold digitpart. rewrite Hc.
  rewrite digits_tail_number by (intros x Hx; apply Hg; right; exact Hx).
  reflexivity.
Qed.

Lemma number_of_uint_acc (d : Decimal.uint) (acc : positive) :
  fold_left (fun a x => 10 * a + x)
    (map digit_value (list_ascii_of_string (NilEmpty.string_of_uint d)))
    (Zpos acc)
  = Zpos (Pos.of_uint_acc d acc).
Proof.
  revert acc. induction d; intros acc; simpl; [reflexivity| ..];
    rewrite <- IHd; f_equal;
    try (match goal with
         | |- context [digit_value ?c] =>
             let v := eval vm_compute in (digit_value c) in
             change (digit_value c) with v
         end; lia).
Qed.

Lemma number_of_uint (d : Decimal.uint) :
  number_of (NilEmpty.string_of_uint d) = Z.of_N (Pos.of_uint d).
Proof.
  unfold number_of, digits_to_Z.
  induction d; simpl; [reflexivity | exact IHd | ..];
    apply (number_of_uint_acc d).
Qed.

Lemma str_of_pos (p : positive) :
  NilZero.string_of_uint (Pos.to_uint p) = NilEmpty.string_of_uint (Pos.to_uint p)
  /\ NilEmpty.string_of_uint (Pos.to_uint p) <> ""
  /\ number_of (NilEmpty.string_of_uint (Pos.to_uint p)) = Zpos p.
Proof.
  pose proof (Unsigned.to_uint_nonnil p) as Hnil.
  split; [destruct (Pos.to_uint p) eqn:E; [congruence | reflexivity ..]|].
  split; [destruct (Pos.to_uint p) eqn:E; [congruence | discriminate ..]|].
  rewrite number_of_uint, Unsigned.of_to. reflexivity.
Qed.

Lemma int_of_str_of_int (n : Z) : int_of_str (str_of_int n) = Ok n.
Proof.
  unfold str_of_int. destruct n as [|p|p]; simpl; [reflexivity| |].
  - destruct (str_of_pos p) as (-> & Hne & Hn).
    rewrite int_of_str_number, Hn;
      [reflexivity | exact Hne | apply string_of_uint_digits].
  - destruct (str_of_pos p) as (-> & Hne & Hn).
    rewrite int_of_str_minus, Hn;
      [reflexivity | exact Hne | apply string_of_uint_digits].
Qed.

End Decimal.

(** X3: an integer written in decimal is read back by [parse_number] as
    that integer, whatever its size and sign, also between blanks. *)
Theorem parse_number_of_decimal (n : Z) :
  parse_number (PyStr (str_of_int n)) = Ok (PyInt n)
  /\ parse_number (PyStr (" " ++ str_of_int n)) = Ok (PyInt n).
Proof.
  split.
  - rewrite parse_number_text, int_of_str_of_int. reflexivity.
  - rewrite parse_number_text.
    replace (int_of_str (" " ++ str_of_int n)) with (int_of_str (str_of_int n));
      [rewrite int_of_str_of_int; reflexivity|].
    reflexivity.
Qed.

(* ===================================================================== *)
(** * More on ScratchRealization.__init__                                  *)
(* ===================================================================== *)

Section PathIndex.
Variables (lit : string) (cls : ascii -> bool).

Lemma skip_prefix_app (x : string) : skip_prefix lit (lit ++ x) = Some x.
Proof.
  induction lit as [|a l IH]; simpl; [destruct x; reflexivity|].
  rewrite Ascii.eqb_refl. exact IH.
Qed.

Lemma take_while_app (g post : string) :
  all_in cls g -> take_while cls post = "" -> take_while cls (g ++ post) = g.
Proof.
  intros Hg Hpost. induction g as [|c g IH]; simpl; [exact Hpost|].
  rewrite (Hg c) by (left; reflexivity).
  rewrite IH by (intros x Hx; apply Hg; right; exact Hx). reflexivity.
Qed.

(** No match where the literal does not occur. *)
Lemma re_dotstar_group_absent (s : string) :
  contains lit s = false -> re_dotstar_group lit cls s = None.
Proof.
  induction s as [|c s IH]; simpl; unfold group_here.
  - destruct (skip_prefix lit ""); [discriminate | reflexivity].
  - destruct (skip_prefix lit (String c s)); [discriminate|].
    intros Hs. rewrite (IH Hs). destruct (code c =? 10); reflexivity.
Qed.

(** Positions that do not hold the first character of the literal are
    passed over. *)
Lemma re_dotstar_group_skip (l0 : ascii) (lit' a b : string) :
  lit = String l0 lit' ->
  (forall c, In c (list_ascii_of_string a) -> c <> l0) ->
  re_dotstar_group lit cls b = None ->
  re_dotstar_group lit cls (a ++ b) = None.
Proof.
  intros Hlit Ha Hb. induction a as [|c a IH]; simpl; [exact Hb|].
  rewrite IH by (intros x Hx; apply Ha; right; exact Hx).
  unfold group_here. rewrite Hlit. simpl.
  destruct (Ascii.eqb_spec l0 c) as [<- | Hne].
  - exfalso. apply (Ha l0); [left|]; reflexivity.
  - destruct (code c =? 10); reflexivity.
Qed.

(** A match further to the right wins over what comes before it on the
    line. *)
Lemma re_dotstar_group_prefix (pre t g : string) :
  all_in (fun c => negb (is_newline c)) pre ->
  re_dotstar_group lit cls t = Some g ->
  re_dotstar_group lit cls (pre ++ t) = Some g.
Proof.
  intros Hpre Ht. induction pre as [|c pre IH]; simpl; [exact Ht|].
  rewrite IH by (intros x Hx; apply Hpre; right; exact Hx).
  assert (Hc : negb (is_newline c) = true) by (apply Hpre; left; reflexivity).
  unfold is_newline in Hc. destruct (code c =? 10); [discriminate|reflexivity].
Qed.

End PathIndex.

Lemma digit_not_r (c : ascii) : is_digit c = true -> c <> "r"%char.
Proof. intros Hc ->. vm_compute in Hc. discriminate. Qed.

(** The default pattern on a path that ends in a numbered realization
    directory, possibly followed by more that does not name another. *)
Lemma default_pattern_group (pre g post : string) :
  all_in (fun c => negb (is_newline c)) pre ->
  g <> "" -> all_in is_digit g ->
  take_while is_digit post = "" ->
  contains "realization-" post = false ->
  re_match default_realidxregexp (pre ++ "realization-" ++ g ++ post) = Some g.
Proof.
  intros Hpre Hne Hg Hpost Habs.
  unfold re_match, default_realidxregexp.
  apply re_dotstar_group_prefix; [exact Hpre|].
  change ("realization-" ++ g ++ post)
    with (String "r" ("ealization-" ++ g ++ post)).
  cbn [re_dotstar_group]. change (code "r" =? 10) with false. cbv iota.
  replace ("ealization-" ++ g ++ post) with (("ealization-" ++ g) ++ post)
    by reflexivity.
  rewrite (re_dotstar_group_skip "realization-" is_digit "r" "ealization-"
             ("ealization-" ++ g) post eq_refl).
  - unfold group_here.
    change (String "r" (("ealization-" ++ g) ++ post))
      with ("realization-" ++ (g ++ post)).
    rewrite skip_prefix_app, take_while_app by assumption.
    destruct g; congruence.
  - intros c Hc.
    assert (Hin : In c (list_ascii_of_string "ealization-")
                  \/ In c (list_ascii_of_string g)).
    { simpl. simpl in Hc. tauto. }
    destruct Hin as [Hin | Hin].
    + simpl in Hin.
      repeat (destruct Hin as [<- | Hin]; [discriminate|]). contradiction.
    + apply digit_not_r, Hg, Hin.
  - apply re_dotstar_group_absent. exact Habs.
Qed.

Lemma all_in_forallb (cls : ascii -> bool) (s : string) :
  forallb cls (list_ascii_of_string s) = true -> all_in cls s.
Proof.
  intros H c Hc. rewrite List.forallb_forall in H. exact (H c Hc).
Qed.

(** What a successful construction went through and produced. *)
Lemma init_ok_inv (env : Env) (path : string) (pattern : Pattern)
    (tr tr' : list event) (r : ScratchRealization.t) :
  __init__ env path pattern tr = (Ok r, tr') ->
  let abs := abspath env path in
  exists g z,
    re_match pattern abs = Some g
    /\ int_of_str g = Ok z
    /\ path_exists env (os_path_join abs ["STATUS"]) = true
    /\ r = {| _origpath := path;
              files :=
                status_row abs
                :: (if path_exists env (os_path_join abs ["jobs.json"])
                    then [jobs_row abs] else [])
                ++ (if path_exists env (os_path_join abs ["parameters.txt"])
                    then [parameters_row abs] else []);
              _eclsum := None; index := z |}
    /\ tr' = (tr ++ discovery abs)%list.
Proof.
  intros Hinit abs. unfold __init__ in Hinit. fold abs in Hinit.
  unfold bind, ret, raise, lift, logger_warn, os_path_exists, emit, modify,
    int in Hinit.
  destruct (re_match pattern abs) as [g|] eqn:Hm; simpl in Hinit;
    [|discriminate].
  destruct (int_of_str g) as [z|e] eqn:Hz; simpl in Hinit; [|discriminate].
  destruct (path_exists env (os_path_join abs ["STATUS"])) eqn:Hs;
    simpl in Hinit; [|discriminate].
  exists g, z. repeat split; try assumption.
  - injection Hinit as <- _.
    destruct (path_exists env (os_path_join abs ["jobs.json"])),
      (path_exists env (os_path_join abs ["parameters.txt"])); reflexivity.
  - injection Hinit as _ <-. unfold record, Traced_trace, discovery.
    simpl. rewrite <- !app_assoc. reflexivity.
Qed.

(** X4: with the default pattern, a directory whose absolute path ends in
    [realization-<digits>], possibly followed by more that holds no other
    [realization-] and does not go on with a digit, gets the number written
    by the digits as its index; what precedes on the line, other
    [realization-<digits>] included, does not count. *)
Theorem init_index_of_path (env : Env) (path pre g post : string)
    (tr tr' : list event) (r : ScratchRealization.t) :
  abspath env path = pre ++ "realization-" ++ g ++ post ->
  all_in (fun c => negb (is_newline c)) pre ->
  g <> "" -> all_in is_digit g ->
  take_while is_digit post = "" ->
  contains "realization-" post = false ->
  __init__ env path default_realidxregexp tr = (Ok r, tr') ->
  index r = number_of g /\ (forall n, g = str_of_int n -> index r = n).
Proof.
  intros Habs Hpre Hne Hg Hpost Hnone Hinit.
  destruct (init_ok_inv _ _ _ _ _ _ Hinit) as (g' & z & Hm & Hz & _ & -> & _).
  rewrite Habs, (default_pattern_group pre g post) in Hm by assumption.
  injection Hm as <-. simpl.
  rewrite (int_of_str_number g Hne Hg) in Hz. injection Hz as <-.
  split; [reflexivity|].
  intros n ->. pose proof (int_of_str_of_int n) as Hn.
  rewrite (int_of_str_number _ Hne Hg) in Hn. congruence.
Qed.

(** X4 at an iteration directory below a numbered realization, itself
    below another one. *)
Lemma init_index_of_path_witness :
  let env := world_of ["/realization-3/realization-12/iter-0/STATUS"]
               (Raise IOError) (Raise IOError) in
  let path := "/realization-3/realization-12/iter-0" in
  (abspath env path = "/realization-3/" ++ "realization-" ++ "12" ++ "/iter-0"
   /\ take_while is_digit "/iter-0" = ""
   /\ contains "realization-" "/iter-0" = false)
  /\ exists r tr', __init__ env path default_realidxregexp [] = (Ok r, tr')
                   /\ index r = 12.
Proof.
  intros env path. split; [repeat split|].
  eexists. eexists. split; [vm_compute; reflexivity|].
  refine (proj1 (init_index_of_path env path "/realization-3/" "12" "/iter-0"
                   [] _ _ eq_refl _ _ _ eq_refl eq_refl eq_refl)).
  - apply all_in_forallb. reflexivity.
  - discriminate.
  - apply all_in_forallb. reflexivity.
Defined.

Lemma append_inv_head (a x y : string) : a ++ x = a ++ y -> x = y.
Proof.
  induction a as [|c a IH]; simpl; [auto|]. intros [= H]. exact (IH H).
Qed.

(** Distinct expected files have distinct full paths. *)
Lemma join_expected_inj (dir a b : string) :
  In a expected_files -> In b expected_files ->
  os_path_join dir [a] = os_path_join dir [b] -> a = b.
Proof.
  unfold os_path_join, join2. simpl fold_left.
  intros Ha Hb. simpl in Ha, Hb.
  assert (Hsa : startswith_sep a = false)
    by (intuition (subst; reflexivity)).
  assert (Hsb : startswith_sep b = false)
    by (intuition (subst; reflexivity)).
  rewrite Hsa, Hsb.
  destruct (String.eqb dir "" || endswith_sep dir); intros H.
  - exact (append_inv_head _ _ _ H).
  - apply append_inv_head, append_inv_head in H. exact H.
Qed.

(** X5: after a successful construction the registry starts with the
    STATUS row, holds a row for jobs.json and for parameters.txt exactly
    when that path existed, and nothing else: every row has the absolute
    directory joined with its local path as full path, pointed to an
    existing path when it was registered, and no two rows share a full
    path. No summary file is registered, the cache is empty, and the path
    is kept as it was given. *)
Theorem init_registry (env : Env) (path : string) (pattern : Pattern)
    (tr tr' : list event) (r : ScratchRealization.t) :
  __init__ env path pattern tr = (Ok r, tr') ->
  let abs := abspath env path in
  hd_error (files r) = Some (status_row abs)
  /\ Forall (fun row =>
               In (LOCALPATH row) expected_files
               /\ FULLPATH row = os_path_join abs [LOCALPATH row]
               /\ path_exists env (FULLPATH row) = true
               /\ BASENAME row = None) (files r)
  /\ (forall name, In name expected_files ->
        (In name (map LOCALPATH (files r))
         <-> path_exists env (os_path_join abs [name]) = true))
  /\ NoDup (map FULLPATH (files r))
  /\ unsmry_rows r = []
  /\ _eclsum r = None
  /\ _origpath r = path.
Proof.
  intros Hinit abs.
  destruct (init_ok_inv _ _ _ _ _ _ Hinit) as (g & z & _ & _ & Hs & -> & _).
  fold abs in Hs |- *. unfold unsmry_rows. simpl.
  split; [reflexivity|].
  assert (Hinj : forall a b, In a expected_files -> In b expected_files ->
                             a <> b ->
                             os_path_join abs [a] <> os_path_join abs [b]).
  { intros a b Ha Hb Hne H. exact (Hne (join_expected_inj abs a b Ha Hb H)). }
  assert (H12 : os_path_join abs ["STATUS"] <> os_path_join abs ["jobs.json"])
    by (apply Hinj; simpl; auto; discriminate).
  assert (H13 : os_path_join abs ["STATUS"]
                <> os_path_join abs ["parameters.txt"])
    by (apply Hinj; simpl; auto; discriminate).
  assert (H23 : os_path_join abs ["jobs.json"]
                <> os_path_join abs ["parameters.txt"])
    by (apply Hinj; simpl; auto; discriminate).
  clear Hinj. unfold expected_files.
  destruct (path_exists env (os_path_join abs ["jobs.json"])) eqn:Hj,
    (path_exists env (os_path_join abs ["parameters.txt"])) eqn:Hp; simpl.
  all: split;
    [repeat (apply List.Forall_cons; [repeat split; simpl; auto 6|]);
     apply List.Forall_nil|].
  all: split;
    [intros name Hn; destruct Hn as [<- | [<- | [<- | []]]];
     rewrite ?Hs, ?Hj, ?Hp;
     (split;
      [intros H;
       first [reflexivity
             | repeat (destruct H as [H | H]; try discriminate H);
               contradiction]
      |intros H; first [discriminate H | auto 6]])|].
  all: split; [|auto].
  all: repeat constructor; intros H; apply list_elem_of_In in H;
    simpl in H; repeat (destruct H as [H | H]; try contradiction);
    first [contradiction | congruence].
Qed.

(** X5 at a complete run directory. *)
Lemma init_registry_witness :
  __init__ full_world "/scratch/realization-12" default_realidxregexp []
  = (Ok (self full_heap), trace full_heap)
  /\ hd_error (files (self full_heap))
     = Some (status_row "/scratch/realization-12")
  /\ NoDup (map FULLPATH (files (self full_heap)))
  /\ unsmry_rows (self full_heap) = [].
Proof.
  split; [reflexivity|].
  destruct (init_registry full_world "/scratch/realization-12"
              default_realidxregexp [] _ _ eq_refl)
    as (Hhd & _ & _ & Hnd & Hun & _).
  split; [exact Hhd|]. split; [exact Hnd | exact Hun].
Defined.

(** X6: construction only probes: it never reads the content of a file,
    never globs and never calls the decoder. A successful construction
    makes exactly the three existence checks, for STATUS, jobs.json and
    parameters.txt, in that order; a failed one tests at most the STATUS
    path, and none at all when the index pattern does not match. *)
Theorem init_outside_calls (env : Env) (path : string) (pattern : Pattern)
    (tr : list event) :
  let abs := abspath env path in
  let out := __init__ env path pattern tr in
  exists evs,
    snd out = (tr ++ evs)%list
    /\ forallb is_probe evs = true
    /\ match fst out with
       | Ok _ => evs = discovery abs
       | Raise _ =>
           List.filter is_fs_read evs
             = (if path_exists env (os_path_join abs ["STATUS"]) then []
                else match re_match pattern abs with
                     | Some g =>
                         match int_of_str g with
                         | Ok _ => [FsExists (os_path_join abs ["STATUS"])]
                         | Raise _ => []
                         end
                     | None => []
                     end)
       end.
Proof.
  intros abs out. unfold out, __init__. fold abs.
  unfold bind, ret, raise, lift, logger_warn, os_path_exists, emit, modify,
    int, record, Traced_trace.
  generalize (path_exists env (os_path_join abs ["jobs.json"])).
  generalize (path_exists env (os_path_join abs ["parameters.txt"])).
  intros txt json.
  destruct (re_match pattern abs) as [g|]; simpl.
  - destruct (int_of_str g) as [z|e]; simpl.
    + destruct (path_exists env (os_path_join abs ["STATUS"])); simpl.
      * exists (discovery abs). unfold discovery. simpl.
        rewrite <- !app_assoc. auto.
      * eexists. rewrite <- !app_assoc. split; [reflexivity|]. auto.
    + exists []. rewrite app_nil_r.
      destruct (path_exists env _); auto.
  - eexists. split; [reflexivity|]. destruct (path_exists env _); auto.
Qed.

(* ===================================================================== *)
(** * More on get_parameters                                               *)
(* ===================================================================== *)

Section ConvertValues.

Local Abbreviation step :=
  (fun (acc : result (list (string * value))) (key : string) =>
     rbind acc (fun params =>
     rbind (dict_get params key) (fun v =>
     rbind (parse_number v) (fun v' =>
     Ok (dict_set params key v'))))).

Lemma convert_fold_raise (keys : list string) (e : exn) :
  fold_left step keys (Raise e) = Raise e.
Proof. induction keys as [|k keys IH]; simpl; [reflexivity | exact IH]. Qed.

Lemma dict_get_fresh (pre post : list (string * value)) (k : string)
    (v : value) :
  ~ In k (map fst pre) -> dict_get (pre ++ (k, v) :: post) k = Ok v.
Proof.
  induction pre as [|[k' w] pre IH]; simpl; intros Hk.
  - rewrite String.eqb_refl. reflexivity.
  - destruct (String.eqb_spec k' k) as [-> | Hne]; [tauto|].
    apply IH. tauto.
Qed.

Lemma dict_set_fresh (pre post : list (string * value)) (k : string)
    (v v' : value) :
  ~ In k (map fst pre) ->
  dict_set (pre ++ (k, v) :: post) k v' = (pre ++ (k, v') :: post)%list.
Proof.
  induction pre as [|[k' w] pre IH]; simpl; intros Hk.
  - rewrite String.eqb_refl. reflexivity.
  - destruct (String.eqb_spec k' k) as [-> | Hne]; [tauto|].
    rewrite IH by tauto. reflexivity.
Qed.

(** The loop over the keys, with [pre] converted already. *)
Lemma convert_fold (pre todo : list (string * value)) :
  (forall k, In k (map fst todo) -> ~ In k (map fst pre)) ->
  NoDup (map fst todo) ->
  match fold_left step (map fst todo) (Ok (pre ++ todo)%list) with
  | Ok out =>
      exists out', out = (pre ++ out')%list
        /\ map fst out' = map fst todo
        /\ Forall2 (fun kv kv' => parse_number (snd kv) = Ok (snd kv'))
             todo out'
  | Raise e =>
      exists a k v b, todo = (a ++ (k, v) :: b)%list
        /\ parse_number v = Raise e
        /\ Forall (fun kv => exists w, parse_number (snd kv) = Ok w) a
  end.
Proof.
  revert pre. induction todo as [|[k v] rest IH]; intros pre Hfresh Hnd.
  - simpl. exists []. rewrite app_nil_r. auto.
  - simpl in Hnd. apply NoDup_cons in Hnd as [Hk Hnd].
    rewrite list_elem_of_In in Hk.
    simpl.
    rewrite dict_get_fresh by (apply Hfresh; left; reflexivity). simpl.
    destruct (parse_number v) as [v'|e] eqn:Hv; simpl.
    + rewrite dict_set_fresh by (apply Hfresh; left; reflexivity).
      replace (pre ++ (k, v') :: rest)%list
        with ((pre ++ [(k, v')]) ++ rest)%list
        by (rewrite <- app_assoc; reflexivity).
      specialize (IH (pre ++ [(k, v')])%list).
      destruct (fold_left step (map fst rest)
                  (Ok ((pre ++ [(k, v')]) ++ rest)%list)) as [out|e].
      * destruct IH as (out' & -> & Hkeys & Hvals); [|exact Hnd|].
        { intros k' Hk'. rewrite map_app, in_app_iff. simpl.
          intros [Hin | [<- | []]]; [|tauto].
          apply (Hfresh k'); [right; exact Hk' | exact Hin]. }
        exists ((k, v') :: out'). rewrite <- app_assoc. simpl.
        split; [reflexivity|]. split; [congruence|].
        constructor; [exact Hv | exact Hvals].
      * destruct IH as (a & k' & w & b & -> & Hw & Ha); [|exact Hnd|].
        { intros k'' Hk''. rewrite map_app, in_app_iff. simpl.
          intros [Hin | [<- | []]]; [|tauto].
          apply (Hfresh k''); [right; exact Hk'' | exact Hin]. }
        exists ((k, v) :: a), k', w, b. split; [reflexivity|].
        split; [exact Hw|]. constructor; [eauto | exact Ha].
    + rewrite convert_fold_raise. exists [], k, v, rest. auto.
Qed.

(** The in-place conversion of a dictionary with distinct keys. *)
Lemma convert_values_outcome (params : list (string * value)) :
  NoDup (map fst params) ->
  match convert_values params with
  | Ok out =>
      map fst out = map fst params
      /\ Forall2 (fun kv kv' => parse_number (snd kv) = Ok (snd kv'))
           params out
  | Raise e =>
      exists a k v b, params = (a ++ (k, v) :: b)%list
        /\ parse_number v = Raise e
        /\ Forall (fun kv => exists w, parse_number (snd kv) = Ok w) a
  end.
Proof.
  intros Hnd. pose proof (convert_fold [] params) as H.
  simpl in H. unfold convert_values.
  destruct (fold_left step (map fst params) (Ok params)) as [out|e].
  - destruct H as (out' & -> & Hk & Hv); auto.
  - apply H; auto.
Qed.

End ConvertValues.

(** X7: with a parameters row in the registry (the first one when there
    are several), [get_parameters] reads the table at that row's full path
    and nothing else, and leaves the object as it is. Without conversion
    the table is returned as read. With conversion, on a table with
    distinct keys, the keys and their order are kept and every value is
    replaced by what [parse_number] makes of it; the call raises only when
    [parse_number] raises on a value, with the exception of the first such
    value, and never on a table that holds only texts. *)
Theorem get_parameters_converts (env : Env) (h : heap) (row : FileRow)
    (rows : list FileRow) (params : list (string * value)) :
  parameters_rows (self h) = row :: rows ->
  table_dict env (FULLPATH row) = Ok params ->
  NoDup (map fst params) ->
  let h' := {| self := self h;
               trace := trace h ++ [ReadTable (FULLPATH row)] |} in
  get_parameters env false h = (Ok params, h')
  /\ snd (get_parameters env true h) = h'
  /\ match fst (get_parameters env true h) with
     | Ok out =>
         map fst out = map fst params
         /\ Forall2 (fun kv kv' => parse_number (snd kv) = Ok (snd kv'))
              params out
     | Raise e =>
         exists a k v b, params = (a ++ (k, v) :: b)%list
           /\ parse_number v = Raise e
           /\ Forall (fun kv => exists w, parse_number (snd kv) = Ok w) a
     end
  /\ (Forall (fun kv => exists s, snd kv = PyStr s) params ->
      exists out, fst (get_parameters env true h) = Ok out).
Proof.
  intros Hrow Htab Hnd h'. unfold parameters_rows in Hrow.
  assert (Hrun : forall b,
    get_parameters env b h
    = (if b then convert_values params else Ok params, h')).
  { intros b. run_eff. rewrite Hrow. simpl. rewrite Htab. simpl.
    destruct b; reflexivity. }
  pose proof (convert_values_outcome params Hnd) as Hout.
  rewrite !Hrun. simpl. repeat split; try exact Hout.
  intros Htext. destruct (convert_values params) as [out|e]; [eauto|].
  exfalso. destruct Hout as (a & k & v & b & -> & Hv & _).
  apply List.Forall_app in Htext as [_ Htext].
  apply List.Forall_inv in Htext as [s Hs]. simpl in Hs. subst v.
  destruct (parse_number_returns (PyStr s) I) as [w Hw]. congruence.
Qed.

(** X7 at a complete run directory. *)
Lemma get_parameters_converts_witness :
  (parameters_rows (self full_heap) = [parameters_row "/scratch/realization-12"]
   /\ table_dict full_world "/scratch/realization-12/parameters.txt"
      = Ok [("FWL", PyStr "1700"); ("MULTZ", PyStr "0.5")])
  /\ fst (get_parameters full_world true full_heap)
     = Ok [("FWL", PyInt 1700); ("MULTZ", PyFloat (dyadic 4503599627370496 (-53)))]
  /\ exists out, fst (get_parameters full_world true full_heap) = Ok out.
Proof.
  split; [split; reflexivity|]. split; [reflexivity|].
  refine (proj2 (proj2 (proj2
    (get_parameters_converts full_world full_heap
       (parameters_row "/scratch/realization-12") []
       [("FWL", PyStr "1700"); ("MULTZ", PyStr "0.5")]
       eq_refl eq_refl _))) _).
  - repeat constructor; intros H; apply list_elem_of_In in H; simpl in H;
      intuition discriminate.
  - repeat constructor; eexists; reflexivity.
Defined.

(* ===================================================================== *)
(** * Sequences of calls                                                   *)
(* ===================================================================== *)

Lemma run_call_frame (env : Env) (c : call) (h : heap) :
  let h' := run_call env c h in
  self h' = self h
  \/ (_eclsum (self h) = None
      /\ exists filename eclsum,
           decode env filename = Ok eclsum
           /\ self h' = with__eclsum (self h) (Some eclsum)).
Proof.
  destruct c as [|w|b]; simpl.
  - destruct (get_eclsum_frame env h) as [Hs | (Hc & f & e & Hd & _ & Hs)];
      [auto|]. right. eauto.
  - apply get_smryvalues_frame.
  - left. apply get_parameters_frame.
Qed.

(** The fields set at construction are not touched by the accessors. *)
Lemma run_calls_fields (later : list (Env * call)) (h : heap) :
  files (self (run_calls later h)) = files (self h)
  /\ _origpath (self (run_calls later h)) = _origpath (self h)
  /\ index (self (run_calls later h)) = index (self h).
Proof.
  revert h. induction later as [|[env c] later IH]; intros h; simpl; [auto|].
  destruct (IH (run_call env c h)) as (Hf & Ho & Hi). simpl in *.
  destruct (run_call_frame env c h) as [Hs | (_ & f & e & _ & Hs)];
    rewrite Hs in Hf, Ho, Hi; auto.
Qed.

(** X8: over any sequence of accessor calls, in any states of the outside
    world, the registry, the original path and the index of an object
    never change, and its summary cache changes at most once: from empty
    to a handle that the decoder returned in one of those worlds. *)
Theorem run_calls_invariant (later : list (Env * call)) (h : heap) :
  let h' := run_calls later h in
  files (self h') = files (self h)
  /\ _origpath (self h') = _origpath (self h)
  /\ index (self h') = index (self h)
  /\ (_eclsum (self h') = _eclsum (self h)
      \/ (_eclsum (self h) = None
          /\ exists env filename eclsum,
               In env (map fst later)
               /\ decode env filename = Ok eclsum
               /\ _eclsum (self h') = Some eclsum)).
Proof.
  revert h. induction later as [|[env c] later IH]; intros h; simpl.
  - auto.
  - specialize (IH (run_call env c h)). simpl in IH.
    destruct IH as (Hf & Ho & Hi & Hc).
    destruct (run_call_frame env c h) as [Hs | (Hnone & f & e & Hd & Hs)].
    + rewrite Hs in Hf, Ho, Hi, Hc. repeat split; try assumption.
      destruct Hc as [Hc | (Hn & env' & f & e & Hin & Hd & Hc)]; [auto|].
      right. split; [exact Hn|]. exists env', f, e. auto.
    + rewrite Hs in Hf, Ho, Hi. repeat split; try assumption.
      right. split; [exact Hnone|]. exists env, f, e.
      split; [left; reflexivity|]. split; [exact Hd|].
      apply run_calls_cached. rewrite Hs. reflexivity.
Qed.

(* ===================================================================== *)
(** * Construction followed by the accessors                               *)
(* ===================================================================== *)

(** The parameters rows of a constructed object. *)
Lemma init_parameters_rows (env : Env) (path : string) (pattern : Pattern)
    (tr tr' : list event) (r : ScratchRealization.t) :
  __init__ env path pattern tr = (Ok r, tr') ->
  parameters_rows r =
    if path_exists env (os_path_join (abspath env path) ["parameters.txt"])
    then [parameters_row (abspath env path)] else [].
Proof.
  intros Hinit.
  destruct (init_ok_inv _ _ _ _ _ _ Hinit) as (g & z & _ & _ & _ & -> & _).
  unfold parameters_rows. simpl.
  destruct (path_exists env (os_path_join (abspath env path) ["jobs.json"])),
    (path_exists env (os_path_join (abspath env path) ["parameters.txt"]));
    reflexivity.
Qed.

(** X9: the registry is filled at construction and never again: when
    parameters.txt was not there at construction, [get_parameters] raises
    [IndexError] at every later call, whatever was called in between and
    whether or not the file exists by then, without looking at the file
    system. *)
Theorem get_parameters_no_late_discovery (env : Env) (path : string)
    (pattern : Pattern) (tr tr' : list event) (r : ScratchRealization.t)
    (later : list (Env * call)) (env' : Env) (b : bool) :
  __init__ env path pattern tr = (Ok r, tr') ->
  path_exists env (os_path_join (abspath env path) ["parameters.txt"]) = false ->
  let h := run_calls later (heap_of r tr') in
  get_parameters env' b h = (Raise IndexError, h).
Proof.
  intros Hinit Habsent h.
  apply get_parameters_unregistered.
  destruct (run_calls_fields later (heap_of r tr')) as (Hf & _).
  fold h in Hf. rewrite Hf. simpl.
  pose proof (init_parameters_rows _ _ _ _ _ _ Hinit) as Hrows.
  rewrite Habsent in Hrows. exact Hrows.
Qed.

(** X9 at a run directory where parameters.txt and a summary appear only
    after construction. *)
Lemma get_parameters_no_late_discovery_witness :
  let later := [(full_world, Call_get_eclsum)] in
  let env' := world_of ["/scratch/realization-0/STATUS";
                        "/scratch/realization-0/parameters.txt"]
                (Ok [("FWL", PyStr "1700")]) (Raise IOError) in
  (__init__ bare_world "/scratch/realization-0" default_realidxregexp []
   = (Ok (self bare_heap), trace bare_heap)
   /\ path_exists bare_world
        (os_path_join (abspath bare_world "/scratch/realization-0")
           ["parameters.txt"]) = false
   /\ path_exists env' "/scratch/realization-0/parameters.txt" = true)
  /\ fst (get_parameters env' true
            (run_calls later (heap_of (self bare_heap) (trace bare_heap))))
     = Raise IndexError.
Proof.
  intros later env'. split; [repeat split|].
  rewrite (get_parameters_no_late_discovery bare_world
             "/scratch/realization-0" default_realidxregexp []
             (trace bare_heap) (self bare_heap) later env' true
             eq_refl eq_refl).
  reflexivity.
Defined.

(** X10: when parameters.txt was there at construction, every later call
    of [get_parameters], whatever was called in between, reads the table
    at the absolute directory of the construction joined with
    [parameters.txt]: the file is read again at each call, nothing of it is
    kept in the object, and what the call returns without conversion is
    what the file holds at that time. *)
Theorem get_parameters_reads_registered (env : Env) (path : string)
    (pattern : Pattern) (tr tr' : list event) (r : ScratchRealization.t)
    (later : list (Env * call)) (env' : Env) (b : bool) :
  __init__ env path pattern tr = (Ok r, tr') ->
  path_exists env (os_path_join (abspath env path) ["parameters.txt"]) = true ->
  let file := os_path_join (abspath env path) ["parameters.txt"] in
  let h := run_calls later (heap_of r tr') in
  snd (get_parameters env' b h)
  = {| self := self h; trace := trace h ++ [ReadTable file] |}
  /\ fst (get_parameters env' false h) = table_dict env' file
  /\ (forall e, table_dict env' file = Raise e ->
                fst (get_parameters env' b h) = Raise e).
Proof.
  intros Hinit Hpresent file h.
  pose proof (init_parameters_rows _ _ _ _ _ _ Hinit) as Hrows.
  rewrite Hpresent in Hrows.
  destruct (run_calls_fields later (heap_of r tr')) as (Hf & _).
  fold h in Hf. simpl in Hf. unfold parameters_rows in Hrows.
  assert (Hrun : forall c,
    get_parameters env' c h
    = (match table_dict env' file with
       | Ok params => if c then convert_values params else Ok params
       | Raise e => Raise e
       end, {| self := self h; trace := trace h ++ [ReadTable file] |})).
  { intros c. run_eff. rewrite Hf, Hrows. simpl. fold file.
    destruct (table_dict env' file); simpl; [|reflexivity].
    destruct c; reflexivity. }
  rewrite !Hrun. simpl. split; [reflexivity|].
  split; [destruct (table_dict env' file); reflexivity|].
  intros e ->. reflexivity.
Qed.

(** X10 at a complete run directory whose parameters file changes after
    construction. *)
Lemma get_parameters_reads_registered_witness :
  let env' := world_of ["/scratch/realization-12/parameters.txt"]
                (Ok [("FWL", PyStr "1750")]) (Raise IOError) in
  (__init__ full_world "/scratch/realization-12" default_realidxregexp []
   = (Ok (self full_heap), trace full_heap)
   /\ path_exists full_world
        (os_path_join (abspath full_world "/scratch/realization-12")
           ["parameters.txt"]) = true)
  /\ fst (get_parameters env' false
            (run_calls [(full_world, Call_get_parameters true)]
               (heap_of (self full_heap) (trace full_heap))))
     = Ok [("FWL", PyStr "1750")].
Proof.
  intros env'. split; [split; reflexivity|].
  rewrite (proj1 (proj2 (get_parameters_reads_registered full_world
             "/scratch/realization-12" default_realidxregexp []
             (trace full_heap) (self full_heap)
             [(full_world, Call_get_parameters true)] env' false
             eq_refl eq_refl))).
  reflexivity.
Defined.

(* ===================================================================== *)
(** * More on get_eclsum                                                   *)
(* ===================================================================== *)

Lemma filter_is_glob_snoc (tr : list event) (e : event) :
  List.filter is_glob (tr ++ [e])
  = (List.filter is_glob tr ++ (if is_glob e then [e] else []))%list.
Proof. rewrite List.filter_app. simpl. destruct (is_glob e); reflexivity. Qed.

(** [get_eclsum] on an empty cache when the registry does not hold exactly
    one summary row. *)
Lemma get_eclsum_globbed (env : Env) (h : heap) :
  _eclsum (self h) = None ->
  length (unsmry_rows (self h)) <> 1%nat ->
  fst (get_eclsum env h)
  = match glob_result env (unsmry_fileguess (self h)) with
    | [] => Raise IndexError
    | first :: _ => load_outcome env first
    end
  /\ exists evs, trace (snd (get_eclsum env h))
                 = (trace h ++ FsGlob (unsmry_fileguess (self h)) :: evs)%list.
Proof.
  intros Hc Hlen. apply Nat.eqb_neq in Hlen. unfold unsmry_rows in Hlen.
  run_eff. rewrite Hc. simpl. rewrite Hlen. simpl.
  fold (unsmry_fileguess (self h)).
  destruct (glob_result env (unsmry_fileguess (self h))) as [|first others];
    simpl.
  - split; [reflexivity|]. exists []. reflexivity.
  - unfold load_outcome. destruct (path_exists env first); simpl.
    + destruct (decode env first); simpl;
        (split; [reflexivity|]; eexists; rewrite <- !app_assoc; reflexivity).
    + split; [reflexivity|]. eexists. rewrite <- !app_assoc. reflexivity.
Qed.

(** X11: how [get_eclsum] picks the file on an empty cache. When the
    registry holds exactly one summary row, only that row's full path is
    tested and decoded, and the file system is not globbed. When it holds
    none, or more than one, the registry is left aside: the glob under the
    original path is made, its first result is the file, and with no result
    the call raises [IndexError]. *)
Theorem get_eclsum_route (env : Env) (h : heap) :
  _eclsum (self h) = None ->
  (forall row, unsmry_rows (self h) = [row] ->
     fst (get_eclsum env h) = load_outcome env (FULLPATH row)
     /\ List.filter is_glob (trace (snd (get_eclsum env h)))
        = List.filter is_glob (trace h))
  /\ (length (unsmry_rows (self h)) <> 1%nat ->
      fst (get_eclsum env h)
      = match glob_result env (unsmry_fileguess (self h)) with
        | [] => Raise IndexError
        | first :: _ => load_outcome env first
        end
      /\ exists evs, trace (snd (get_eclsum env h))
                     = (trace h ++ FsGlob (unsmry_fileguess (self h)) :: evs)%list).
Proof.
  intros Hc. split.
  - intros row Hrow. unfold unsmry_rows in Hrow.
    run_eff. rewrite Hc. simpl. rewrite Hrow. simpl. unfold load_outcome.
    destruct (path_exists env (FULLPATH row)); simpl.
    + destruct (decode env (FULLPATH row)); simpl;
        rewrite !filter_is_glob_snoc; simpl; rewrite !app_nil_r; auto.
    + rewrite !filter_is_glob_snoc. simpl. rewrite !app_nil_r. auto.
  - apply get_eclsum_globbed. exact Hc.
Qed.

(** X11 on an object with one registered summary file, in a world where
    the glob would find another one. *)
Lemma get_eclsum_route_witness :
  let row := {| FULLPATH := "/data/R.UNSMRY"; FILETYPE := "UNSMRY";
                LOCALPATH := "R.UNSMRY"; BASENAME := None |} in
  let h := {| self := {| _origpath := "/scratch/realization-12";
                         files := [status_row "/scratch/realization-12"; row];
                         _eclsum := None; index := 12 |};
              trace := [] |} in
  _eclsum (self h) = None
  /\ unsmry_rows (self h) = [row]
  /\ fst (get_eclsum full_world h) = Ok None
  /\ List.filter is_glob (trace (snd (get_eclsum full_world h))) = [].
Proof.
  intros row h. split; [reflexivity|]. split; [reflexivity|].
  destruct (proj1 (get_eclsum_route full_world h eq_refl) row eq_refl)
    as [Hr Hg].
  split; [rewrite Hr; reflexivity | exact Hg].
Defined.

Lemma init_no_summary (env : Env) (path : string) (pattern : Pattern)
    (tr tr' : list event) (r : ScratchRealization.t) :
  __init__ env path pattern tr = (Ok r, tr') ->
  unsmry_rows r = [] /\ _origpath r = path /\ _eclsum r = None.
Proof.
  intros Hinit.
  destruct (init_ok_inv _ _ _ _ _ _ Hinit) as (g & z & _ & _ & _ & -> & _).
  unfold unsmry_rows. simpl.
  destruct (path_exists env (os_path_join (abspath env path) ["jobs.json"])),
    (path_exists env (os_path_join (abspath env path) ["parameters.txt"]));
    auto.
Qed.

(** X12: an object as constructed has no summary file registered, so as
    long as its cache is empty [get_eclsum] globs for
    [eclipse/model/*.UNSMRY] under the path as it was given to the
    constructor (not the absolute one), takes the first result, and raises
    [IndexError] when there is none. *)
Theorem get_eclsum_after_init (env : Env) (path : string) (pattern : Pattern)
    (tr tr' : list event) (r : ScratchRealization.t)
    (later : list (Env * call)) (env' : Env) :
  __init__ env path pattern tr = (Ok r, tr') ->
  let h := run_calls later (heap_of r tr') in
  _eclsum (self h) = None ->
  fst (get_eclsum env' h)
  = match glob_result env'
            (os_path_join path ["eclipse/model"; "*.UNSMRY"]) with
    | [] => Raise IndexError
    | first :: _ => load_outcome env' first
    end.
Proof.
  intros Hinit h Hc.
  destruct (run_calls_fields later (heap_of r tr')) as (Hf & Ho & _).
  fold h in Hf, Ho. simpl in Hf, Ho.
  destruct (init_no_summary _ _ _ _ _ _ Hinit) as (Hun & Hp & _).
  destruct (get_eclsum_globbed env' h Hc) as [Hr _].
  - unfold unsmry_rows in *. rewrite Hf, Hun. discriminate.
  - rewrite Hr. unfold unsmry_fileguess. rewrite Ho, Hp. reflexivity.
Qed.

(** X12 at a complete run directory, after the parameters were read. *)
Lemma get_eclsum_after_init_witness :
  let h := run_calls [(full_world, Call_get_parameters true)]
             (heap_of (self full_heap) (trace full_heap)) in
  (__init__ full_world "/scratch/realization-12" default_realidxregexp []
   = (Ok (self full_heap), trace full_heap)
   /\ _eclsum (self h) = None)
  /\ fst (get_eclsum full_world h) = Ok (Some three_vectors)
  /\ fst (get_eclsum bare_world h) = Raise IndexError.
Proof.
  intros h. split; [split; reflexivity|]. unfold h.
  split.
  - rewrite (get_eclsum_after_init full_world "/scratch/realization-12"
               default_realidxregexp [] (trace full_heap) (self full_heap)
               [(full_world, Call_get_parameters true)] full_world
               eq_refl eq_refl).
    reflexivity.
  - rewrite (get_eclsum_after_init full_world "/scratch/realization-12"
               default_realidxregexp [] (trace full_heap) (self full_heap)
               [(full_world, Call_get_parameters true)] bare_world
               eq_refl eq_refl).
    reflexivity.
Defined.

(** X13: a decoder failure is not remembered either. When the file is
    there but the decoder raises, [get_eclsum] and [get_smryvalues] raise
    that exception and the object stays as it was, cache empty; the next
    call invokes the decoder again and, if it succeeds then, returns and
    caches the handle. *)
Theorem get_eclsum_decode_failure (env : Env) (h : heap) (filename : string)
    (e : exn) :
  _eclsum (self h) = None ->
  resolves env (self h) filename ->
  path_exists env filename = true ->
  decode env filename = Raise e ->
  let h1 := snd (get_eclsum env h) in
  fst (get_eclsum env h) = Raise e
  /\ self h1 = self h
  /\ decode_count (trace h1) = S (decode_count (trace h))
  /\ (forall w, fst (get_smryvalues env w h) = Raise e
                /\ self (snd (get_smryvalues env w h)) = self h)
  /\ decode_count (trace (snd (get_eclsum env h1)))
     = S (S (decode_count (trace h)))
  /\ (forall env' filename' eclsum,
        resolves env' (self h) filename' ->
        path_exists env' filename' = true ->
        decode env' filename' = Ok eclsum ->
        fst (get_eclsum env' h1) = Ok (Some eclsum)
        /\ _eclsum (self (snd (get_eclsum env' h1))) = Some eclsum).
Proof.
  intros Hc Hres Hex Hd h1.
  destruct (get_eclsum_resolved env h filename Hc Hres) as (tr & Htr & Hg).
  rewrite Hex, Hd in Hg.
  assert (Hself : self h1 = self h) by (unfold h1; rewrite Hg; reflexivity).
  assert (Hc1 : _eclsum (self h1) = None) by (rewrite Hself; exact Hc).
  assert (Hn1 : decode_count (trace h1) = S (decode_count (trace h))).
  { unfold h1. rewrite Hg. simpl. rewrite !decode_count_snoc. simpl. lia. }
  split; [rewrite Hg; reflexivity|].
  split; [exact Hself|]. split; [exact Hn1|]. split; [|split].
  - intros w. rewrite get_smryvalues_heap, Hc. simpl. fold h1.
    split; [|exact Hself].
    unfold get_smryvalues, bind, gets. simpl. rewrite Hc. simpl.
    rewrite Hg. reflexivity.
  - rewrite <- Hself in Hres.
    destruct (get_eclsum_resolved env h1 filename Hc1 Hres) as (tr1 & Htr1 & Hg1).
    rewrite Hex, Hd in Hg1. rewrite Hg1. simpl.
    rewrite !decode_count_snoc. simpl. lia.
  - intros env' filename' eclsum Hres' Hex' Hd'. rewrite <- Hself in Hres'.
    destruct (get_eclsum_resolved env' h1 filename' Hc1 Hres')
      as (tr' & _ & Hg').
    rewrite Hex', Hd' in Hg'. rewrite Hg'. auto.
Qed.

(** X13 at a run directory whose summary file cannot be decoded at first. *)
Lemma get_eclsum_decode_failure_witness :
  let broken := world_of ["/scratch/realization-12/eclipse/model/R.UNSMRY"]
                  (Raise IOError) (Raise IOError) in
  let file := "/scratch/realization-12/eclipse/model/R.UNSMRY" in
  (_eclsum (self full_heap) = None
   /\ resolves broken (self full_heap) file
   /\ path_exists broken file = true
   /\ decode broken file = Raise IOError)
  /\ fst (get_eclsum broken full_heap) = Raise IOError
  /\ fst (get_eclsum full_world (snd (get_eclsum broken full_heap)))
     = Ok (Some three_vectors).
Proof.
  intros broken file.
  assert (Hres : forall env,
            glob_result env (unsmry_fileguess (self full_heap)) = [file] ->
            resolves env (self full_heap) file).
  { intros env Hg. apply (resolves_globbed env _ file []); [discriminate|].
    exact Hg. }
  destruct (get_eclsum_decode_failure broken full_heap file IOError
              eq_refl (Hres broken eq_refl) eq_refl eq_refl)
    as (Hr & _ & _ & _ & _ & Hretry).
  split; [repeat split; apply (Hres broken); reflexivity|].
  split; [exact Hr|].
  exact (proj1 (Hretry full_world file three_vectors
                  (Hres full_world eq_refl) eq_refl eq_refl)).
Defined.

(* ===================================================================== *)
(** * More on get_smryvalues                                               *)
(* ===================================================================== *)

(** X14: the case in which [get_smryvalues] does return the empty table:
    the cache is empty and the file name [get_eclsum] settles on (the one
    registered summary file, or the first result of the glob) does not
    exist. The patterns are not looked at, the decoder is not called and
    the object stays as it was. *)
Theorem get_smryvalues_empty_table (env : Env) (h : heap) (filename : string)
    (w : wildcards) :
  _eclsum (self h) = None ->
  resolves env (self h) filename ->
  path_exists env filename = false ->
  fst (get_smryvalues env w h) = Ok pd.empty
  /\ self (snd (get_smryvalues env w h)) = self h
  /\ decode_count (trace (snd (get_smryvalues env w h)))
     = decode_count (trace h).
Proof.
  intros Hc Hres Hex.
  split; [exact (get_smryvalues_missing_file env h filename w Hc Hres Hex)|].
  rewrite get_smryvalues_heap, Hc. simpl.
  destruct (get_eclsum_resolved env h filename Hc Hres) as (tr & Htr & Hg).
  rewrite Hex in Hg. rewrite Hg. simpl.
  split; [reflexivity|]. rewrite decode_count_snoc. simpl. lia.
Qed.

(** X14 on an object whose registered summary file is gone. *)
Lemma get_smryvalues_empty_table_witness :
  let row := {| FULLPATH := "/data/R.UNSMRY"; FILETYPE := "UNSMRY";
                LOCALPATH := "R.UNSMRY"; BASENAME := None |} in
  let h := {| self := {| _origpath := "/scratch/realization-12";
                         files := [status_row "/scratch/realization-12"; row];
                         _eclsum := None; index := 12 |};
              trace := [] |} in
  (_eclsum (self h) = None
   /\ resolves full_world (self h) "/data/R.UNSMRY"
   /\ path_exists full_world "/data/R.UNSMRY" = false)
  /\ fst (get_smryvalues full_world (WStr "FO*") h) = Ok pd.empty.
Proof.
  intros row h.
  assert (Hres : resolves full_world (self h) (FULLPATH row))
    by (apply resolves_registered; reflexivity).
  split; [repeat split; exact Hres|].
  exact (proj1 (get_smryvalues_empty_table full_world h "/data/R.UNSMRY"
                  (WStr "FO*") eq_refl Hres eq_refl)).
Defined.

Section Patterns.



End Patterns.


Section UnreadableVector.
Variable f : string -> result (list spec_float).

Local Abbreviation collect :=
  (fun (acc : result (gmap string (list spec_float))) (prop : string) =>
     rbind acc (fun data => rbind (f prop) (fun v => Ok (<[prop := v]> data)))).

Lemma dict_fold_raised (l : list string) (e : exn) :
  fold_left collect l (Raise e) = Raise e.
Proof. induction l as [|a l IH]; simpl; [reflexivity | exact IH]. Qed.

(** The comprehension raises as soon as one value does. *)
Lemma dict_fold_raise (l : list string)
    (d0 : gmap string (list spec_float)) (k : string) (e : exn) :
  k ∈ l -> f k = Raise e ->
  exists k' e', k' ∈ l /\ f k' = Raise e'
                /\ fold_left collect l (Ok d0) = Raise e'.
Proof.
  revert d0. induction l as [|a l IH]; intros d0 Hk Hf.
  - inversion Hk.
  - simpl. destruct (f a) as [v|e'] eqn:Ha; simpl.
    + apply elem_of_cons in Hk as [-> | Hk]; [congruence|].
      destruct (IH (<[a := v]> d0) Hk Hf) as (k' & e' & Hk' & Hf' & Hr).
      exists k', e'. split; [right; exact Hk'|]. auto.
    + exists a, e'. split; [left|]. split; [exact Ha|].
      apply dict_fold_raised.
Qed.

End UnreadableVector.

(** X16: no partial table. When the summary is loaded and one of the
    resolved vectors cannot be read, [get_smryvalues] raises the exception
    of a resolved vector that cannot be read, and returns no table. *)
Theorem get_smryvalues_unreadable_vector (env : Env) (h : heap)
    (eclsum : EclSum) (w : wildcards) (p : option string) (name : string)
    (e : exn) :
  fst (get_eclsum env h) = Ok (Some eclsum) ->
  p ∈ wildcard_list w -> name ∈ keys eclsum p ->
  vector_of eclsum name = Raise e ->
  exists name' e',
    name' ∈ resolve_props eclsum (wildcard_list w)
    /\ vector_of eclsum name' = Raise e'
    /\ get_smryvalues env w h = (Raise e', snd (get_eclsum env h)).
Proof.
  intros Hr Hp Hname Hvec.
  rewrite (get_smryvalues_on_load env h eclsum w Hr).
  pose proof (get_eclsum_result_cached env h eclsum Hr) as Hc.
  generalize dependent (snd (get_eclsum env h)). clear h Hr. intros h Hc.
  set (props := resolve_props eclsum (wildcard_list w)).
  assert (Hin : name ∈ elements props).
  { apply elem_of_elements, elem_of_resolve_props. eauto. }
  destruct (dict_fold_raise (vector_of eclsum) (elements props) ∅ name e
              Hin Hvec) as (name' & e' & Hin' & Hvec' & Hfold).
  exists name', e'. split; [apply elem_of_elements; exact Hin'|].
  split; [exact Hvec'|].
  unfold get_smryvalues, bind, gets, ret, lift, truth, EclSum_bool.
  simpl. rewrite Hc. simpl. rewrite Hc. simpl. fold props.
  replace (if has_numpy_vector eclsum
           then dict_of_props props (numpy_vector eclsum)
           else dict_of_props props (get_values eclsum))
    with (dict_of_props props (vector_of eclsum))
    by (unfold vector_of; destruct (has_numpy_vector eclsum); reflexivity).
  unfold dict_of_props. rewrite Hfold. reflexivity.
Qed.

(** A summary that lists a vector it cannot give. *)
Lemma get_smryvalues_unreadable_vector_witness :
  let broken :=
    {| keys := fun _ => ["FOPT"; "WOPR"]; has_numpy_vector := false;
       numpy_vector := fun _ => Raise AttributeError;
       get_values := fun k => if String.eqb k "FOPT" then Ok [dyadic 1 0]
                              else Raise KeyError;
       get_dates := [17532] |} in
  let h := {| self := with__eclsum (self full_heap) (Some broken);
              trace := [] |} in
  (fst (get_eclsum bare_world h) = Ok (Some broken)
   /\ vector_of broken "WOPR" = Raise KeyError)
  /\ fst (get_smryvalues bare_world WNone h) = Raise KeyError.
Proof.
  intros broken h. split; [split; reflexivity|].
  destruct (get_smryvalues_unreadable_vector bare_world h broken WNone None
              "WOPR" KeyError eq_refl) as (name' & e' & _ & Hv & Hg).
  - left.
  - right. left.
  - reflexivity.
  - rewrite Hg. simpl. unfold vector_of in Hv. simpl in Hv.
    destruct (String.eqb name' "FOPT"); congruence.
Defined.

(** X17: patterns that name no vector do not make [get_smryvalues] fail:
    with the summary loaded it returns a table without columns, whose
    index still holds the report dates (which is the empty table only for
    a summary without report dates). *)
Theorem get_smryvalues_no_match (env : Env) (h : heap) (eclsum : EclSum)
    (w : wildcards) :
  fst (get_eclsum env h) = Ok (Some eclsum) ->
  (forall p, p ∈ wildcard_list w -> keys eclsum p = []) ->
  get_smryvalues env w h
  = (Ok {| pd.columns := ∅; pd.index := get_dates eclsum |},
     snd (get_eclsum env h)).
Proof.
  intros Hr Hnone.
  rewrite (get_smryvalues_on_load env h eclsum w Hr).
  pose proof (get_eclsum_result_cached env h eclsum Hr) as Hc.
  generalize dependent (snd (get_eclsum env h)). clear h Hr. intros h Hc.
  assert (Hprops : resolve_props eclsum (wildcard_list w) = ∅).
  { apply set_eq. intros name. rewrite elem_of_resolve_props. split.
    - intros (p & Hp & Hk). rewrite (Hnone p Hp) in Hk. inversion Hk.
    - intros Hk. exfalso. exact (not_elem_of_empty name Hk). }
  unfold get_smryvalues, bind, gets, ret, lift, truth, EclSum_bool.
  simpl. rewrite Hc. simpl. rewrite Hc. simpl. rewrite Hprops.
  unfold dict_of_props. rewrite elements_empty. simpl.
  destruct (has_numpy_vector eclsum); simpl; unfold pd.DataFrame_of;
    rewrite bool_decide_eq_true_2 by apply map_Forall_empty; reflexivity.
Qed.

(** X17 with a pattern that none of the three vectors matches. *)
Lemma get_smryvalues_no_match_witness :
  fst (get_eclsum bare_world loaded_heap) = Ok (Some three_vectors)
  /\ keys three_vectors (Some "G*") = []
  /\ fst (get_smryvalues bare_world (WStr "G*") loaded_heap)
     = Ok {| pd.columns := ∅; pd.index := [17532; 17563] |}.
Proof.
  split; [reflexivity|]. split; [reflexivity|].
  rewrite (get_smryvalues_no_match bare_world loaded_heap three_vectors
             (WStr "G*") eq_refl).
  - reflexivity.
  - intros p Hp. apply list_elem_of_In in Hp. simpl in Hp.
    destruct Hp as [<- | []]. reflexivity.
Defined.

(* ===================================================================== *)
(** * Texts that become integers                                           *)
(* ===================================================================== *)

Section IntegerTexts.

Lemma lstrip_chars (s : string) (c : ascii) :
  In c (list_ascii_of_string s) ->
  is_space c = true \/ In c (list_ascii_of_string (lstrip s)).
Proof.
  induction s as [|a s IH]; simpl; [tauto|].
  destruct (is_space a) eqn:Ha; simpl.
  - intros [Heq | Hc]; [left; rewrite <- Heq; exact Ha | exact (IH Hc)].
  - auto.
Qed.

Lemma rstrip_chars (s : string) (c : ascii) :
  In c (list_ascii_of_string s) ->
  is_space c = true \/ In c (list_ascii_of_string (rstrip s)).
Proof.
  induction s as [|a s IH]; simpl; [tauto|].
  intros [Heq | Hc].
  - destruct (rstrip s); [|right; left; exact Heq].
    destruct (is_space a) eqn:Ha;
      [left; rewrite <- Heq; exact Ha | right; left; exact Heq].
  - destruct (IH Hc) as [Hs | Hin]; [left; exact Hs|].
    destruct (rstrip s); [contradiction|]. right. right. exact Hin.
Qed.

Lemma split_sign_chars (s : string) (c : ascii) :
  In c (list_ascii_of_string s) ->
  code c = 43 \/ code c = 45 \/ In c (list_ascii_of_string (snd (split_sign s))).
Proof.
  destruct s as [|a s]; simpl; [tauto|]. intros Hc.
  destruct (Ascii.eqb_spec a "-"%char) as [-> | Hm].
  - destruct Hc as [Heq | Hc];
      [right; left; rewrite <- Heq; reflexivity | right; right; exact Hc].
  - destruct (Ascii.eqb_spec a "+"%char) as [-> | Hp].
    + destruct Hc as [Heq | Hc];
        [left; rewrite <- Heq; reflexivity | right; right; exact Hc].
    + right. right.
      destruct a as [[] [] [] [] [] [] [] []]; try exact Hc; congruence.
Qed.

(** A digit group that is read to its end holds digits and underscores. *)
Lemma digits_tail_chars (n : nat) (s : string) (ds : list Z) (c : ascii) :
  (String.length s <= n)%nat ->
  digits_tail s = (ds, "") ->
  In c (list_ascii_of_string s) ->
  is_digit c = true \/ code c = 95.
Proof.
  revert s ds. induction n as [|n IH]; intros s ds Hn Hs Hc.
  - destruct s; [contradiction | simpl in Hn; lia].
  - destruct s as [|a s]; [contradiction|]. simpl in Hn, Hs.
    destruct (is_digit a) eqn:Ha.
    + destruct (digits_tail s) as [ds' r] eqn:Ht. injection Hs as _ ->.
      destruct Hc as [Heq | Hc]; [left; rewrite <- Heq; exact Ha|].
      apply (IH s ds'); [lia | exact Ht | exact Hc].
    + destruct (Ascii.eqb_spec a "_"%char) as [-> | Hu].
      * destruct s as [|d s]; [discriminate|].
        destruct (is_digit d) eqn:Hd; [|discriminate].
        destruct (digits_tail s) as [ds' r] eqn:Ht. injection Hs as _ ->.
        destruct Hc as [Heq | [Heq | Hc]];
          [right; rewrite <- Heq; reflexivity
          |left; rewrite <- Heq; exact Hd |].
        apply (IH s ds'); [simpl in Hn; lia | exact Ht | exact Hc].
      * exfalso.
        destruct a as [[] [] [] [] [] [] [] []]; try discriminate Hs;
          try congruence; destruct s; discriminate Hs.
Qed.

Lemma int_of_str_chars (s : string) (z : Z) (c : ascii) :
  int_of_str s = Ok z ->
  In c (list_ascii_of_string s) -> is_int_char c = true.
Proof.
  unfold int_of_str, strip. intros Hz Hc.
  destruct (lstrip_chars s c Hc) as [Hs | Hc1];
    [unfold is_int_char; rewrite Hs; reflexivity|].
  destruct (rstrip_chars _ c Hc1) as [Hs | Hc2];
    [unfold is_int_char; rewrite Hs; reflexivity|].
  destruct (split_sign_chars _ c Hc2) as [Hp | [Hm | Hc3]];
    [unfold is_int_char; rewrite Hp; rewrite !orb_true_r; reflexivity
    |unfold is_int_char; rewrite Hm; rewrite !orb_true_r; reflexivity|].
  destruct (split_sign (rstrip (lstrip s))) as [neg body]. simpl in Hc3.
  unfold digitpart in Hz.
  destruct body as [|a body]; [discriminate|].
  destruct (is_digit a) eqn:Ha; [|discriminate].
  destruct (digits_tail body) as [ds r] eqn:Ht.
  destruct r; [|discriminate].
  unfold is_int_char. destruct Hc3 as [Heq | Hc3].
  - rewrite <- Heq, Ha, !orb_true_r. reflexivity.
  - destruct (digits_tail_chars _ body ds c (le_n _) Ht Hc3) as [Hd | Hu].
    + rewrite Hd, !orb_true_r. reflexivity.
    + rewrite Hu, !orb_true_r. reflexivity.
Qed.

End IntegerTexts.

(** X18: [parse_number] turns a text into an integer only when [int]
    reads it, and then the text is written with blanks, signs, digits and
    underscores only: a text with a decimal point, an exponent or any
    other character never becomes an integer, whatever its value. *)
Theorem parse_number_int_text (s : string) (z : Z) :
  parse_number (PyStr s) = Ok (PyInt z) ->
  int_of_str s = Ok z
  /\ forall c, In c (list_ascii_of_string s) -> is_int_char c = true.
Proof.
  intros Hp. rewrite parse_number_text in Hp.
  assert (Hz : int_of_str s = Ok z).
  { destruct (int_of_str s) as [i|e]; [congruence|].
    destruct (float_of_str s); discriminate. }
  split; [exact Hz|]. intros c. exact (int_of_str_chars s z c Hz).
Qed.

(** X18 at a number written with padding, a sign and a separator. *)
Lemma parse_number_int_text_witness :
  parse_number (PyStr " -1_000 ") = Ok (PyInt (-1000))
  /\ int_of_str " -1_000 " = Ok (-1000)
  /\ is_int_char "_" = true.
Proof.
  destruct (parse_number_int_text " -1_000 " (-1000) eq_refl) as [Hz Hc].
  split; [reflexivity|]. split; [exact Hz|].
  apply Hc. simpl. tauto.
Defined.
